(** * Admin command dispatcher of the recruiting bot (manager_bot/admin.py)

    A shallow embedding of the eleven admin command handlers and of the
    admin-notification helper, together with the properties of the
    authorization gate, argument validation, readiness gating, file
    retrieval and error reporting.

    The handlers are sequential code over external collaborators (chat
    transport, records store, pipeline functions, file system, process
    environment).  The collaborators are gathered in a [World]; a handler is
    a computation in a state-and-exception monad whose state is the handler's
    frame: the chronological trace of the calls it made and the one local
    variable the error report inspects.

    Conventions of the model:
    - every collaborator may raise; only subclasses of [Exception] are
      modelled, which is what [except Exception] catches;
    - [logger] calls and the formatting of texts do not raise;
    - an [async] handler is run to completion: each [await] is a call whose
      outcome the world decides;
    - each handler is given as its [try] suite and its [except] suite, and
      the handler is the first guarded by the second. *)

From Stdlib Require Import String Ascii List ZArith Bool Arith Lia.
Import ListNotations.
Open Scope string_scope.

(* ===================================================================== *)
(** ** Python values used by the module *)
(* ===================================================================== *)

Module Py.

(** Truth value of a [str]: the empty string is falsy. *)
Definition truthy (s : string) : bool := negb (s =? "").

(** Truth value of [context.args] (a list, or [None]). *)
Definition truthy_list {A} (l : option (list A)) : bool :=
  match l with
  | Some (_ :: _) => true
  | _ => false
  end.

(** [len(l)] where the list is known not to be [None]. *)
Definition len {A} (l : option (list A)) : nat :=
  match l with
  | Some xs => List.length xs
  | None => 0
  end.

(** [x in l] for a list of strings. *)
Definition str_in (x : string) (l : list string) : bool :=
  existsb (String.eqb x) l.

(** [sep.join(l)]. *)
Definition join (sep : string) (l : list string) : string :=
  String.concat sep l.

Definition nl : string := String (ascii_of_nat 10) "".

(** [s.startswith("/")] and [s.endswith("/")]. *)
Definition starts_with_slash (s : string) : bool :=
  match s with
  | String c _ => Ascii.eqb c "/"
  | EmptyString => false
  end.

Fixpoint ends_with_slash (s : string) : bool :=
  match s with
  | EmptyString => false
  | String c EmptyString => Ascii.eqb c "/"
  | String _ s' => ends_with_slash s'
  end.

(** [s.split(c)]: never empty, keeps empty fields. *)
Fixpoint split (c : ascii) (s : string) : list string :=
  match s with
  | EmptyString => [EmptyString]
  | String a s' =>
      if Ascii.eqb a c then EmptyString :: split c s'
      else match split c s' with
           | h :: t => String a h :: t
           | [] => [String a EmptyString]
           end
  end.

(** [s.rfind(".")], [None] standing for -1. *)
Fixpoint rfind_dot (s : string) : option nat :=
  match s with
  | EmptyString => None
  | String a s' =>
      match rfind_dot s' with
      | Some i => Some (S i)
      | None => if Ascii.eqb a "." then Some 0 else None
      end
  end.

(** *** [int(s)] for a [str] argument, base 10.

    Surrounding white space is dropped, one sign is allowed, digits may be
    grouped by single underscores, and more than 4300 digits are refused.
    Only ASCII white space and digits are covered. *)

Definition is_space (a : ascii) : bool :=
  let n := nat_of_ascii a in
  (((9 <=? n) && (n <=? 13)) || ((28 <=? n) && (n <=? 32)))%nat.

Definition is_digit (a : ascii) : bool :=
  let n := nat_of_ascii a in ((48 <=? n) && (n <=? 57))%nat.

Definition digit_val (a : ascii) : Z := Z.of_nat (nat_of_ascii a - 48).

Fixpoint lstrip (l : list ascii) : list ascii :=
  match l with
  | a :: l' => if is_space a then lstrip l' else l
  | [] => []
  end.

Definition strip (l : list ascii) : list ascii :=
  rev (lstrip (rev (lstrip l))).

Fixpoint int_digits (l : list ascii) (acc : Z) (after_digit : bool)
  : option Z :=
  match l with
  | [] => if after_digit then Some acc else None
  | a :: l' =>
      if is_digit a then int_digits l' (10 * acc + digit_val a)%Z true
      else if Ascii.eqb a "_" && after_digit then
             match l' with
             | [] => None
             | _ => int_digits l' acc false
             end
           else None
  end.

Definition max_str_digits : nat := 4300.

Definition int_unsigned (l : list ascii) : option Z :=
  if (List.length (filter is_digit l) <=? max_str_digits)%nat
  then int_digits l 0%Z false
  else None.

Definition int (s : string) : option Z :=
  match strip (list_ascii_of_string s) with
  | a :: l' =>
      if Ascii.eqb a "+" then int_unsigned l'
      else if Ascii.eqb a "-" then option_map Z.opp (int_unsigned l')
      else int_unsigned (a :: l')
  | [] => None
  end.

(** Text of the [ValueError] of a failed [int(s)]. *)
Definition int_error_text (s : string) : string :=
  "invalid literal for int() with base 10: '" ++ s ++ "'".

End Py.

(* ===================================================================== *)
(** ** pathlib, POSIX flavour *)
(* ===================================================================== *)

Module Pathlib.

(** A parsed pure path: the root (empty, one slash, or two slashes) and
    the components. *)
Record Path := mkPath { root : string; tail : list string }.

(** [posixpath.splitroot]. *)
Definition splitroot (p : string) : string * string :=
  match p with
  | String c1 r1 =>
      if negb (Ascii.eqb c1 "/") then ("", p)
      else match r1 with
           | String c2 r2 =>
               if negb (Ascii.eqb c2 "/") then ("/", r1)
               else match r2 with
                    | String c3 _ =>
                        if Ascii.eqb c3 "/" then ("/", r1) else ("//", r2)
                    | EmptyString => ("//", r2)
                    end
           | EmptyString => ("/", r1)
           end
  | EmptyString => ("", p)
  end.

Definition keep_part (x : string) : bool :=
  negb (x =? "") && negb (x =? ".").

(** Parsing of a raw path string. *)
Definition parse (p : string) : Path :=
  if p =? "" then mkPath "" []
  else let '(r, rel) := splitroot p in
       mkPath r (filter keep_part (Py.split "/" rel)).

(** [str(path)]. *)
Definition str (p : Path) : string :=
  let s := root p ++ Py.join "/" (tail p) in
  if s =? "" then "." else s.

(** [posixpath.join(a, b)]. *)
Definition posix_join (a b : string) : string :=
  if Py.starts_with_slash b then b
  else if (a =? "") || Py.ends_with_slash a then a ++ b
       else a ++ "/" ++ b.

(** [path / key]. *)
Definition truediv (p : Path) (key : string) : Path :=
  parse (posix_join (str p) key).

(** [path.name]: the last component, or the empty string. *)
Definition name (p : Path) : string := last (tail p) "".

(** [path.suffix]: the last dot of the name onwards, provided that dot is
    neither the first nor the last character of the name. *)
Definition suffix (p : Path) : string :=
  let n := name p in
  match Py.rfind_dot n with
  | Some i =>
      if ((0 <? i) && (i <? String.length n - 1))%nat
      then substring i (String.length n - i) n
      else ""
  | None => ""
  end.





End Pathlib.

(* ===================================================================== *)
(** ** Data model: exceptions, chat objects, calls, collaborators *)
(* ===================================================================== *)

(** Classes of the exceptions the handlers raise or may receive from a
    collaborator; all are subclasses of [Exception]. *)
Inductive ExcClass :=
| ValueError
| FileNotFoundError
| RuntimeError
| TelegramError
| AttributeError
| OSError
| OtherException.

(** An exception: its class and [str(e)]. *)
Record Exc := mkExc { exc_class : ExcClass; exc_str : string }.

Inductive Result (A : Type) :=
| Ok (a : A)
| Raise (e : Exc).
Arguments Ok {A} a.
Arguments Raise {A} e.

Inductive ParseMode := MARKDOWN | MARKDOWN_V2 | HTML.

Inductive Bot := TheBot.

(** [telegram.ext.Application]: only its [bot] attribute is read. *)
Record Application := mkApplication { bot : option Bot }.

(** [telegram.Update]: its number, and the id of [update.effective_chat]
    when there is one. *)
Record Update := mkUpdate {
  update_id : Z;
  effective_chat : option Z
}.

(** The callback context: [context.args] and [context.application]. *)
Record Context := mkContext {
  args : option (list string);
  application : option Application
}.

(** The pipeline-triggering operations imported from [manager_bot], with
    the arguments the handlers pass. *)
Inductive Delegate :=
| inform_admin_about_user_readiness
    (bot_user_id : string) (app : option Application)
| define_sourcing_criterias_triggered_by_admin_command
    (bot_user_id : string)
| send_to_user_sourcing_criterias_triggered_by_admin_command
    (bot_user_id : string) (app : option Application)
| source_negotiations_triggered_by_admin_command
    (bot_user_id : string)
| source_resumes_triggered_by_admin_command
    (bot_user_id : string)
| analyze_resume_triggered_by_admin_command
    (bot_user_id : string)
| update_resume_records_with_fresh_video_from_applicants_triggered_by_admin_command
    (bot_user_id : string) (vacancy_id : string)
| recommend_resumes_triggered_by_admin_command
    (bot_user_id : string) (app : option Application).

Inductive LogLevel := DEBUG | INFO | WARNING | ERROR.

(** What a handler does to the outside, in the order it does it. *)
Inductive Event :=
| Log (level : LogLevel) (msg : string) (exc_info : bool)
| SendMessageToUser (text : string)
    (* services.questionnaire_service.send_message_to_user(update, context, text) *)
| SendMessageToAdmin (text : string)
    (* entry into send_message_to_admin(application, text) *)
| BotSendMessage (chat_id : Z) (text : string) (parse_mode : option ParseMode)
| BotSendDocument (chat_id : Z) (path : string) (filename : string)
| CallDelegate (d : Delegate)
| PathExists (path : string)
| FileOpen (path : string)
| FileClose (path : string).

Definition Trace := list Event.

(** The collaborators that are not part of this module.  Records are read
    at most once per invocation and before any pipeline operation runs, so
    the record readers depend on their arguments only; the transport, the
    pipeline operations and [open] may be called repeatedly and see the
    trace so far.  An outcome [None] is a normal return. *)
Record World := mkWorld {
  (* os.environ *)
  environ : string -> option string;
  (* services.constants *)
  FAIL_TO_IDENTIFY_USER_AS_ADMIN_TEXT : string;
  FAIL_TECHNICAL_SUPPORT_TEXT : string;
  (* services.data_service; the values are carried by their str() *)
  get_tg_user_data_attribute_from_update_object :
    Update -> string -> Result string;
  get_list_of_users_from_records : Result string;
  get_target_vacancy_id_from_records : string -> Result string;
  (* services.status_validation_service; the truth value of the result *)
  is_user_in_records : string -> Result bool;
  is_vacancy_description_recieved : string -> Result bool;
  is_vacancy_sourcing_criterias_recieved : string -> Result bool;
  is_vacancy_selected : string -> Result bool;
  is_vacany_data_enough_for_resume_analysis : string -> Result bool;
  (* chat transport, pipeline, file system *)
  send_message_to_user_outcome : Trace -> string -> option Exc;
  bot_send_message_outcome :
    Trace -> Z -> string -> option ParseMode -> option Exc;
  bot_send_document_outcome : Trace -> Z -> string -> string -> option Exc;
  delegate_outcome : Trace -> Delegate -> option Exc;
  path_exists : string -> bool;
  open_outcome : Trace -> string -> option Exc
}.

(** [os.getenv(key, default)]. *)
Definition getenv (w : World) (key default : string) : string :=
  match environ w key with
  | Some v => v
  | None => default
  end.

(* ===================================================================== *)
(** ** The handler monad *)
(* ===================================================================== *)

(** The frame of one invocation: the trace, and the local [bot_user_id]
    once it has been assigned (the error report tests
    ['bot_user_id' in locals()]). *)
Record Frame := mkFrame {
  trace : Trace;
  local_bot_user_id : option string
}.

Definition M (A : Type) : Type := Frame -> Frame * Result A.

Definition ret {A} (a : A) : M A := fun f => (f, Ok a).

Definition raise {A} (c : ExcClass) (msg : string) : M A :=
  fun f => (f, Raise (mkExc c msg)).

Definition reraise {A} (e : Exc) : M A := fun f => (f, Raise e).

Definition bind {A B} (m : M A) (k : A -> M B) : M B :=
  fun f =>
    match m f with
    | (f', Ok a) => k a f'
    | (f', Raise e) => (f', Raise e)
    end.

(** [try: m except Exception as e: h e]. *)
Definition try_except {A} (m : M A) (h : Exc -> M A) : M A :=
  fun f =>
    match m f with
    | (f', Ok a) => (f', Ok a)
    | (f', Raise e) => h e f'
    end.

(** [try: m except ValueError: h]. *)
Definition try_except_ValueError {A} (m : M A) (h : M A) : M A :=
  fun f =>
    match m f with
    | (f', Raise (mkExc ValueError _)) => h f'
    | r => r
    end.

(** The exit of a [with] block: [c] runs whatever [m] did. *)
Definition finally {A} (m : M A) (c : M unit) : M A :=
  fun f =>
    match m f with
    | (f', r) =>
        match c f' with
        | (f'', Ok _) => (f'', r)
        | (f'', Raise e) => (f'', Raise e)
        end
    end.

Declare Scope handler_scope.
Delimit Scope handler_scope with handler.
Notation "x <- m ;; k" := (bind m (fun x => k))
  (at level 61, m at next level, right associativity) : handler_scope.
Notation "m ;; k" := (bind m (fun _ => k))
  (at level 61, right associativity) : handler_scope.
Open Scope handler_scope.

(** Result of a collaborator that only reads. *)
Definition lift {A} (r : Result A) : M A := fun f => (f, r).

(** A call that is recorded, and whose outcome the world decides from the
    trace before the call. *)
Definition call (ev : Event) (outcome : Trace -> option Exc) : M unit :=
  fun f =>
    let f' := mkFrame (trace f ++ [ev])%list (local_bot_user_id f) in
    match outcome (trace f) with
    | None => (f', Ok tt)
    | Some e => (f', Raise e)
    end.

Definition emit (ev : Event) : M unit := call ev (fun _ => None).

Definition assign_bot_user_id (v : string) : M unit :=
  fun f => (mkFrame (trace f) (Some v), Ok tt).

(** [bot_user_id if 'bot_user_id' in locals() else 'unknown']. *)
Definition bot_user_id_or_unknown : M string :=
  fun f =>
    (f, Ok match local_bot_user_id f with
           | Some v => v
           | None => "unknown"
           end).

Definition logger_debug (msg : string) : M unit := emit (Log DEBUG msg false).
Definition logger_info (msg : string) : M unit := emit (Log INFO msg false).
Definition logger_warning (msg : string) : M unit :=
  emit (Log WARNING msg false).
Definition logger_error (msg : string) (exc_info : bool) : M unit :=
  emit (Log ERROR msg exc_info).

(* ===================================================================== *)
(** ** The module: notification helper and command handlers *)
(* ===================================================================== *)

Section Admin.

Variable w : World.

(** [application and application.bot]. *)
Definition application_and_bot (application : option Application) : bool :=
  match application with
  | Some a => match bot a with Some _ => true | None => false end
  | None => false
  end.

(** [int(s)], raising [ValueError] when [s] is not an integer literal. *)
Definition int_ (s : string) : M Z :=
  match Py.int s with
  | Some z => ret z
  | None => raise ValueError (Py.int_error_text s)
  end.

Definition bot_send_message
  (chat_id : Z) (text : string) (parse_mode : option ParseMode) : M unit :=
  call (BotSendMessage chat_id text parse_mode)
       (fun t => bot_send_message_outcome w t chat_id text parse_mode).

Definition send_message_to_admin
  (application : option Application) (text : string)
  (parse_mode : option ParseMode) : M unit :=
  emit (SendMessageToAdmin text) ;;
  let admin_id := getenv w "ADMIN_ID" "" in
  if negb (Py.truthy admin_id) then
    logger_error "send_message_to_admin:ADMIN_ID environment variable is not set. Cannot send admin notification." false
    (* return *)
  else
    try_except
      (if application_and_bot application then
         chat_id <- int_ admin_id ;;
         bot_send_message chat_id text parse_mode ;;
         logger_debug ("send_message_to_admin: Admin notification sent successfully to admin_id: " ++ admin_id)
       else
         logger_warning "send_message_to_admin: Cannot send admin notification: application or bot instance not available")
      (fun e =>
         logger_error ("send_message_to_admin: Failed to send admin notification: " ++ exc_str e) true).

Variable update : Update.
Variable context : Context.

(** [str(get_tg_user_data_attribute_from_update_object(update=update,
    tg_user_attribute="id"))]. *)
Definition resolve_bot_user_id : M string :=
  lift (get_tg_user_data_attribute_from_update_object w update "id").

Definition send_message_to_user (text : string) : M unit :=
  call (SendMessageToUser text)
       (fun t => send_message_to_user_outcome w t text).

Definition delegate (d : Delegate) : M unit :=
  call (CallDelegate d) (fun t => delegate_outcome w t d).

(** [not admin_id or bot_user_id != admin_id]. *)
Definition not_admin (admin_id bot_user_id : string) : bool :=
  negb (Py.truthy admin_id) || negb (bot_user_id =? admin_id).

(** The [except Exception as e] suite shared, up to the texts, by every
    handler but [admin_send_message_command]. *)
Definition report_failure (log_prefix report_prefix : string) (e : Exc)
  : M unit :=
  logger_error (log_prefix ++ exc_str e) true ;;
  match application context with
  | Some _ =>
      who <- bot_user_id_or_unknown ;;
      send_message_to_admin (application context)
        (report_prefix ++ exc_str e ++ Py.nl ++ "Admin ID: " ++ who) None
  | None => ret tt
  end.

(* ------------------------------------------------------------------- *)
(** *** admin_get_users_command *)

Definition admin_get_users_command_try : M unit :=
  bot_user_id <- resolve_bot_user_id ;;
  assign_bot_user_id bot_user_id ;;
  logger_info ("admin_get_users_command: started. User_id: " ++ bot_user_id) ;;
  let admin_id := getenv w "ADMIN_ID" "" in
  if not_admin admin_id bot_user_id then
    send_message_to_user (FAIL_TO_IDENTIFY_USER_AS_ADMIN_TEXT w) ;;
    logger_error ("Unauthorized for " ++ bot_user_id) false
    (* return *)
  else
    user_ids <- lift (get_list_of_users_from_records w) ;;
    send_message_to_user ("📋 List of users: " ++ user_ids).

Definition admin_get_users_command_except (e : Exc) : M unit :=
  report_failure
    "admin_get_users_command: Failed to execute admin_get_list_of_users command: "
    "⚠️ Error admin_get_users_command: " e.

Definition admin_get_users_command : M unit :=
  try_except admin_get_users_command_try admin_get_users_command_except.

(* ------------------------------------------------------------------- *)
(** *** admin_get_user_status_command

    In this and the following handlers [context.args and
    len(context.args) == 1] followed by [context.args[0]] is the match on
    a one-element list. *)

Definition admin_get_user_status_command_try : M unit :=
  bot_user_id <- resolve_bot_user_id ;;
  assign_bot_user_id bot_user_id ;;
  logger_info ("admin_get_user_status_command: started. User_id: " ++ bot_user_id) ;;
  let admin_id := getenv w "ADMIN_ID" "" in
  if not_admin admin_id bot_user_id then
    send_message_to_user (FAIL_TO_IDENTIFY_USER_AS_ADMIN_TEXT w) ;;
    logger_error ("Unauthorized for " ++ bot_user_id) false
  else
    match args context with
    | Some [target_user_id] =>
        if Py.truthy target_user_id then
          in_records <- lift (is_user_in_records w target_user_id) ;;
          if (in_records : bool) then
            delegate (inform_admin_about_user_readiness
                        target_user_id (application context))
          else
            raise ValueError ("User " ++ target_user_id ++ " not found in records.")
        else
          raise ValueError "Invalid command arguments."
    | _ => raise ValueError "Invalid number of arguments."
    end.

Definition admin_get_user_status_command_except (e : Exc) : M unit :=
  report_failure
    "admin_get_user_status_command: Failed to execute command: "
    "⚠️ Error admin_get_user_status_command: " e.

Definition admin_get_user_status_command : M unit :=
  try_except admin_get_user_status_command_try
             admin_get_user_status_command_except.

(* ------------------------------------------------------------------- *)
(** *** admin_anazlyze_sourcing_criterais_command *)

Definition admin_anazlyze_sourcing_criterais_command_try : M unit :=
  bot_user_id <- resolve_bot_user_id ;;
  assign_bot_user_id bot_user_id ;;
  logger_info ("admin_anazlyze_sourcing_criterais_command: started. User_id: " ++ bot_user_id) ;;
  let admin_id := getenv w "ADMIN_ID" "" in
  if not_admin admin_id bot_user_id then
    send_message_to_user (FAIL_TO_IDENTIFY_USER_AS_ADMIN_TEXT w) ;;
    logger_error ("Unauthorized for " ++ bot_user_id) false
  else
    match args context with
    | Some [target_user_id] =>
        if Py.truthy target_user_id then
          in_records <- lift (is_user_in_records w target_user_id) ;;
          if (in_records : bool) then
            ready <- lift (is_vacancy_description_recieved w target_user_id) ;;
            if (ready : bool) then
              delegate (define_sourcing_criterias_triggered_by_admin_command
                          target_user_id) ;;
              send_message_to_user ("Taks for analysing sourcing criterias is in task_queue for user " ++ target_user_id ++ ".")
            else
              raise ValueError ("User " ++ target_user_id ++ " does not have vacancy description received.")
          else
            raise ValueError ("User " ++ target_user_id ++ " not found in records.")
        else
          raise ValueError "Invalid command arguments."
    | _ => raise ValueError "Invalid number of arguments."
    end.

Definition admin_anazlyze_sourcing_criterais_command_except (e : Exc)
  : M unit :=
  report_failure
    "admin_anazlyze_sourcing_criterais_command: Failed to execute command: "
    "⚠️ Error admin_anazlyze_sourcing_criterais_command: " e.

Definition admin_anazlyze_sourcing_criterais_command : M unit :=
  try_except admin_anazlyze_sourcing_criterais_command_try
             admin_anazlyze_sourcing_criterais_command_except.

(* ------------------------------------------------------------------- *)
(** *** admin_send_sourcing_criterais_to_user_command *)

Definition admin_send_sourcing_criterais_to_user_command_try : M unit :=
  bot_user_id <- resolve_bot_user_id ;;
  assign_bot_user_id bot_user_id ;;
  logger_info ("admin_send_sourcing_criterais_to_user_command: started. User_id: " ++ bot_user_id) ;;
  let admin_id := getenv w "ADMIN_ID" "" in
  if not_admin admin_id bot_user_id then
    send_message_to_user (FAIL_TO_IDENTIFY_USER_AS_ADMIN_TEXT w) ;;
    logger_error ("Unauthorized for " ++ bot_user_id) false
  else
    match args context with
    | Some [target_user_id] =>
        if Py.truthy target_user_id then
          in_records <- lift (is_user_in_records w target_user_id) ;;
          if (in_records : bool) then
            logger_debug ("User " ++ target_user_id ++ " found in records.") ;;
            ready <- lift (is_vacancy_sourcing_criterias_recieved w target_user_id) ;;
            if (ready : bool) then
              delegate (send_to_user_sourcing_criterias_triggered_by_admin_command
                          target_user_id (application context)) ;;
              send_message_to_user ("Sourcing criterias sent to user " ++ target_user_id ++ ".")
            else
              raise ValueError ("User " ++ target_user_id ++ " does not have enough vacancy data for resume analysis.")
          else
            raise ValueError ("User " ++ target_user_id ++ " not found in records.")
        else
          raise ValueError "Invalid command arguments."
    | _ => raise ValueError "Invalid number of arguments."
    end.

Definition admin_send_sourcing_criterais_to_user_command_except (e : Exc)
  : M unit :=
  report_failure
    "admin_send_sourcing_criterais_to_user_command: Failed: "
    "⚠️ Error admin_send_sourcing_criterais_to_user_command: " e.

Definition admin_send_sourcing_criterais_to_user_command : M unit :=
  try_except admin_send_sourcing_criterais_to_user_command_try
             admin_send_sourcing_criterais_to_user_command_except.

(* ------------------------------------------------------------------- *)
(** *** admin_update_negotiations_command *)

Definition admin_update_negotiations_command_try : M unit :=
  bot_user_id <- resolve_bot_user_id ;;
  assign_bot_user_id bot_user_id ;;
  logger_info ("admin_update_negotiations_command: started. User_id: " ++ bot_user_id) ;;
  let admin_id := getenv w "ADMIN_ID" "" in
  if not_admin admin_id bot_user_id then
    send_message_to_user (FAIL_TO_IDENTIFY_USER_AS_ADMIN_TEXT w) ;;
    logger_error ("Unauthorized for " ++ bot_user_id) false
  else
    match args context with
    | Some [target_user_id] =>
        if Py.truthy target_user_id then
          in_records <- lift (is_user_in_records w target_user_id) ;;
          if (in_records : bool) then
            ready <- lift (is_vacancy_selected w target_user_id) ;;
            if (ready : bool) then
              delegate (source_negotiations_triggered_by_admin_command
                          target_user_id) ;;
              send_message_to_user ("Negotiations collection updated for user " ++ target_user_id ++ ".")
            else
              raise ValueError ("User " ++ target_user_id ++ " does not have enough vacancy data for resume analysis.")
          else
            raise ValueError ("User " ++ target_user_id ++ " not found in records.")
        else
          raise ValueError "Invalid command arguments."
    | _ => raise ValueError "Invalid number of arguments."
    end.

Definition admin_update_negotiations_command_except (e : Exc) : M unit :=
  report_failure
    "admin_update_negotiations_command: Failed to execute command: "
    "⚠️ Error admin_update_negotiations_command: " e.

Definition admin_update_negotiations_command : M unit :=
  try_except admin_update_negotiations_command_try
             admin_update_negotiations_command_except.

(* ------------------------------------------------------------------- *)
(** *** admin_get_fresh_resumes_command *)

Definition admin_get_fresh_resumes_command_try : M unit :=
  bot_user_id <- resolve_bot_user_id ;;
  assign_bot_user_id bot_user_id ;;
  logger_info ("admin_get_fresh_resumes_command: started. User_id: " ++ bot_user_id) ;;
  let admin_id := getenv w "ADMIN_ID" "" in
  if not_admin admin_id bot_user_id then
    send_message_to_user (FAIL_TO_IDENTIFY_USER_AS_ADMIN_TEXT w) ;;
    logger_error ("Unauthorized for " ++ bot_user_id) false
  else
    match args context with
    | Some [target_user_id] =>
        if Py.truthy target_user_id then
          in_records <- lift (is_user_in_records w target_user_id) ;;
          if (in_records : bool) then
            ready <- lift (is_vacany_data_enough_for_resume_analysis w target_user_id) ;;
            if (ready : bool) then
              delegate (source_resumes_triggered_by_admin_command
                          target_user_id) ;;
              send_message_to_user ("Fresh resumes collected for user " ++ target_user_id ++ ".")
            else
              raise ValueError ("User " ++ target_user_id ++ " does not have enough vacancy data for resume analysis.")
          else
            raise ValueError ("User " ++ target_user_id ++ " not found in records.")
        else
          raise ValueError "Invalid command arguments."
    | _ => raise ValueError "Invalid number of arguments."
    end.

Definition admin_get_fresh_resumes_command_except (e : Exc) : M unit :=
  report_failure
    "admin_get_fresh_resumes_command: Failed to execute command: "
    "⚠️ Error admin_get_fresh_resumes_command: " e.

Definition admin_get_fresh_resumes_command : M unit :=
  try_except admin_get_fresh_resumes_command_try
             admin_get_fresh_resumes_command_except.

(* ------------------------------------------------------------------- *)
(** *** admin_anazlyze_resumes_command *)

Definition admin_anazlyze_resumes_command_try : M unit :=
  bot_user_id <- resolve_bot_user_id ;;
  assign_bot_user_id bot_user_id ;;
  logger_info ("admin_anazlyze_resumes_command: started. User_id: " ++ bot_user_id) ;;
  let admin_id := getenv w "ADMIN_ID" "" in
  if not_admin admin_id bot_user_id then
    send_message_to_user (FAIL_TO_IDENTIFY_USER_AS_ADMIN_TEXT w) ;;
    logger_error ("Unauthorized for " ++ bot_user_id) false
  else
    match args context with
    | Some [target_user_id] =>
        if Py.truthy target_user_id then
          in_records <- lift (is_user_in_records w target_user_id) ;;
          if (in_records : bool) then
            ready <- lift (is_vacany_data_enough_for_resume_analysis w target_user_id) ;;
            if (ready : bool) then
              send_message_to_user ("Start creating tasks for analysis of the fresh resumes for user " ++ target_user_id ++ ".") ;;
              delegate (analyze_resume_triggered_by_admin_command
                          target_user_id) ;;
              send_message_to_user ("Analysis of fresh resumes is done for user " ++ target_user_id ++ ".")
            else
              raise ValueError ("User " ++ target_user_id ++ " does not have enough vacancy data for resume analysis.")
          else
            raise ValueError ("User " ++ target_user_id ++ " not found in records.")
        else
          raise ValueError "Invalid command arguments."
    | _ => raise ValueError "Invalid number of arguments."
    end.

Definition admin_anazlyze_resumes_command_except (e : Exc) : M unit :=
  report_failure
    "admin_anazlyze_resumes_command: Failed to execute command: "
    "⚠️ Error admin_anazlyze_resumes_command: " e.

Definition admin_anazlyze_resumes_command : M unit :=
  try_except admin_anazlyze_resumes_command_try
             admin_anazlyze_resumes_command_except.

(* ------------------------------------------------------------------- *)
(** *** admin_update_resume_records_with_applicants_video_status_command *)

Definition admin_update_resume_records_with_applicants_video_status_command_try
  : M unit :=
  bot_user_id <- resolve_bot_user_id ;;
  assign_bot_user_id bot_user_id ;;
  logger_info ("admin_update_resume_records_with_applicants_video_status_command: started. User_id: " ++ bot_user_id) ;;
  let admin_id := getenv w "ADMIN_ID" "" in
  if not_admin admin_id bot_user_id then
    send_message_to_user (FAIL_TO_IDENTIFY_USER_AS_ADMIN_TEXT w) ;;
    logger_error ("Unauthorized for " ++ bot_user_id) false
  else
    match args context with
    | Some [target_user_id] =>
        if Py.truthy target_user_id then
          in_records <- lift (is_user_in_records w target_user_id) ;;
          if (in_records : bool) then
            ready <- lift (is_vacany_data_enough_for_resume_analysis w target_user_id) ;;
            if (ready : bool) then
              target_user_vacancy_id <-
                lift (get_target_vacancy_id_from_records w target_user_id) ;;
              delegate (update_resume_records_with_fresh_video_from_applicants_triggered_by_admin_command
                          target_user_id target_user_vacancy_id) ;;
              send_message_to_user ("Resume records updated with fresh videos from applicants for user " ++ target_user_id ++ ".")
            else
              raise ValueError ("User " ++ target_user_id ++ " does not have enough vacancy data for resume analysis.")
          else
            raise ValueError ("User " ++ target_user_id ++ " not found in records.")
        else
          raise ValueError "Invalid command arguments."
    | _ => raise ValueError "Invalid number of arguments."
    end.

Definition admin_update_resume_records_with_applicants_video_status_command_except
  (e : Exc) : M unit :=
  report_failure
    "admin_update_resume_records_with_applicants_video_status_command: Failed to execute command: "
    "⚠️ Error admin_update_resume_records_with_applicants_video_status_command: " e.

Definition admin_update_resume_records_with_applicants_video_status_command
  : M unit :=
  try_except
    admin_update_resume_records_with_applicants_video_status_command_try
    admin_update_resume_records_with_applicants_video_status_command_except.

(* ------------------------------------------------------------------- *)
(** *** admin_recommend_resumes_command

    The confirmation text is a plain string literal, not an f-string. *)

Definition admin_recommend_resumes_command_try : M unit :=
  bot_user_id <- resolve_bot_user_id ;;
  assign_bot_user_id bot_user_id ;;
  logger_info ("admin_recommend_resumes_command: started. User_id: " ++ bot_user_id) ;;
  let admin_id := getenv w "ADMIN_ID" "" in
  if not_admin admin_id bot_user_id then
    send_message_to_user (FAIL_TO_IDENTIFY_USER_AS_ADMIN_TEXT w) ;;
    logger_error ("Unauthorized for " ++ bot_user_id) false
  else
    match args context with
    | Some [target_user_id] =>
        if Py.truthy target_user_id then
          in_records <- lift (is_user_in_records w target_user_id) ;;
          if (in_records : bool) then
            ready <- lift (is_vacany_data_enough_for_resume_analysis w target_user_id) ;;
            if (ready : bool) then
              delegate (recommend_resumes_triggered_by_admin_command
                          target_user_id (application context)) ;;
              send_message_to_user "Recommending resumes is triggered for user {target_user_id}."
            else
              raise ValueError ("User " ++ target_user_id ++ " does not have enough vacancy data for resume analysis.")
          else
            raise ValueError ("User " ++ target_user_id ++ " not found in records.")
        else
          raise ValueError "Invalid command arguments."
    | _ => raise ValueError "Invalid number of arguments."
    end.

Definition admin_recommend_resumes_command_except (e : Exc) : M unit :=
  report_failure
    "admin_recommend_resumes_command: Failed to execute command: "
    "⚠️ Error admin_recommend_resumes_command: " e.

Definition admin_recommend_resumes_command : M unit :=
  try_except admin_recommend_resumes_command_try
             admin_recommend_resumes_command_except.

(* ------------------------------------------------------------------- *)
(** *** admin_send_message_command

    [not context.args or len(context.args) < 2] fails exactly on a list
    with a first element and at least one more. *)

Definition admin_send_message_command_try : M unit :=
  bot_user_id <- resolve_bot_user_id ;;
  assign_bot_user_id bot_user_id ;;
  logger_info ("admin_send_message_command triggered by user_id: " ++ bot_user_id) ;;
  let admin_id := getenv w "ADMIN_ID" "" in
  if not_admin admin_id bot_user_id then
    send_message_to_user (FAIL_TO_IDENTIFY_USER_AS_ADMIN_TEXT w) ;;
    logger_error ("Unauthorized for " ++ bot_user_id) false
  else
    match args context with
    | Some (target_user_id :: ((_ :: _) as rest)) =>
        let message_text := Py.join " " rest in
        target_user_id_int <-
          try_except_ValueError
            (int_ target_user_id)
            (raise ValueError "Invalid command arguments.") ;;
        if application_and_bot (application context) then
          try_except
            (bot_send_message target_user_id_int message_text None ;;
             send_message_to_user ("✅ Сообщение отправлено пользователю " ++ target_user_id ++ ":" ++ Py.nl ++ "'" ++ message_text ++ "'") ;;
             logger_info ("Admin " ++ bot_user_id ++ " sent message to user " ++ target_user_id ++ ": " ++ message_text))
            (fun send_err =>
               let error_msg := "❌ Не удалось отправить сообщение пользователю " ++ target_user_id ++ ": " ++ exc_str send_err in
               send_message_to_user error_msg ;;
               logger_error ("Failed to send message to user " ++ target_user_id ++ ": " ++ exc_str send_err) true ;;
               reraise send_err)
        else
          raise ValueError "Application or bot instance not available"
    | _ => raise ValueError "Invalid number of arguments."
    end.

Definition admin_send_message_command_except (e : Exc) : M unit :=
  logger_error ("Failed to execute admin_send_message_to_user command: " ++ exc_str e) true ;;
  send_message_to_user (FAIL_TECHNICAL_SUPPORT_TEXT w) ;;
  match application context with
  | Some _ =>
      who <- bot_user_id_or_unknown ;;
      send_message_to_admin (application context)
        ("⚠️ Error executing admin_send_message_to_user command: " ++ exc_str e ++ Py.nl ++ "Admin ID: " ++ who) None
  | None => ret tt
  end.

Definition admin_send_message_command : M unit :=
  try_except admin_send_message_command_try admin_send_message_command_except.

(* ------------------------------------------------------------------- *)
(** *** admin_pull_file_command *)

Definition valid_extensions : list string := [".log"; ".json"; ".mp4"].

(** [file_path.exists()]. *)
Definition exists_ (p : string) : M bool :=
  emit (PathExists p) ;; ret (path_exists w p).

(** [update.effective_chat.id]. *)
Definition effective_chat_id : M Z :=
  match effective_chat update with
  | Some chat_id => ret chat_id
  | None => raise AttributeError "'NoneType' object has no attribute 'id'"
  end.

(** [with open(p, 'rb') as file: body]. *)
Definition with_open (p : string) (body : M unit) : M unit :=
  call (FileOpen p) (fun t => open_outcome w t p) ;;
  finally body (emit (FileClose p)).

Definition bot_send_document (chat_id : Z) (p filename : string) : M unit :=
  call (BotSendDocument chat_id p filename)
       (fun t => bot_send_document_outcome w t chat_id p filename).

Definition admin_pull_file_command_try : M unit :=
  bot_user_id <- resolve_bot_user_id ;;
  assign_bot_user_id bot_user_id ;;
  logger_info ("admin_pull_file_command: started. User_id: " ++ bot_user_id) ;;
  let admin_id := getenv w "ADMIN_ID" "" in
  if not_admin admin_id bot_user_id then
    send_message_to_user (FAIL_TO_IDENTIFY_USER_AS_ADMIN_TEXT w) ;;
    logger_error ("Unauthorized for " ++ bot_user_id) false
  else
    match args context with
    | Some [file_relative_path] =>
        let data_dir := Pathlib.parse (getenv w "USERS_DATA_DIR" "/users_data") in
        let file_path := Pathlib.truediv data_dir file_relative_path in
        let file_name := Pathlib.name file_path in
        let file_extension := Pathlib.suffix file_path in
        if negb (Py.str_in file_extension valid_extensions) then
          let invalid_extension_text :=
            "Invalid file extension." ++ Py.nl ++ "Valid: " ++ Py.join ", " valid_extensions in
          raise ValueError invalid_extension_text
        else
          found <- exists_ (Pathlib.str file_path) ;;
          if negb found then
            let invalid_path_text :=
              "Invalid file relative path'" ++ file_relative_path ++ "'. File not found" in
            raise FileNotFoundError invalid_path_text
          else if application_and_bot (application context) then
            try_except
              (chat_id <- effective_chat_id ;;
               with_open (Pathlib.str file_path)
                 (bot_send_document chat_id (Pathlib.str file_path) file_name) ;;
               logger_info ("admin_pull_file_command: file '" ++ Pathlib.str file_path ++ "' sent to user " ++ bot_user_id))
              (fun send_err =>
                 raise TelegramError ("Failed to send file '" ++ Pathlib.str file_path ++ "': " ++ exc_str send_err))
          else
            raise RuntimeError "Application or bot instance not available"
    | _ => raise ValueError "Invalid number of arguments."
    end.

Definition admin_pull_file_command_except (e : Exc) : M unit :=
  report_failure
    "admin_pull_file_command: Failed to execute: "
    "⚠️ Error admin_pull_file_command: " e.

Definition admin_pull_file_command : M unit :=
  try_except admin_pull_file_command_try admin_pull_file_command_except.

End Admin.

(* ===================================================================== *)
(** ** Running a handler, and reading its trace *)
(* ===================================================================== *)

(** The chat commands of the module. *)
Inductive Command :=
| admin_get_users
| admin_get_user_status
| admin_analyze_sourcing_criterias
| admin_send_sourcing_criterias_to_user
| admin_update_neg_coll_for_all
| admin_get_fresh_resumes
| admin_analyze_resumes
| admin_update_resume_records_with_applicants_video_status
| admin_recommend_resumes
| admin_send_message
| admin_pull_file.

Definition handler (c : Command) (w : World) (u : Update) (ctx : Context)
  : M unit :=
  match c with
  | admin_get_users => admin_get_users_command w u ctx
  | admin_get_user_status => admin_get_user_status_command w u ctx
  | admin_analyze_sourcing_criterias =>
      admin_anazlyze_sourcing_criterais_command w u ctx
  | admin_send_sourcing_criterias_to_user =>
      admin_send_sourcing_criterais_to_user_command w u ctx
  | admin_update_neg_coll_for_all => admin_update_negotiations_command w u ctx
  | admin_get_fresh_resumes => admin_get_fresh_resumes_command w u ctx
  | admin_analyze_resumes => admin_anazlyze_resumes_command w u ctx
  | admin_update_resume_records_with_applicants_video_status =>
      admin_update_resume_records_with_applicants_video_status_command w u ctx
  | admin_recommend_resumes => admin_recommend_resumes_command w u ctx
  | admin_send_message => admin_send_message_command w u ctx
  | admin_pull_file => admin_pull_file_command w u ctx
  end.

(** The [try] suite of a handler, before its [except] clause applies. *)
Definition handler_try (c : Command) (w : World) (u : Update) (ctx : Context)
  : M unit :=
  match c with
  | admin_get_users => admin_get_users_command_try w u
  | admin_get_user_status => admin_get_user_status_command_try w u ctx
  | admin_analyze_sourcing_criterias =>
      admin_anazlyze_sourcing_criterais_command_try w u ctx
  | admin_send_sourcing_criterias_to_user =>
      admin_send_sourcing_criterais_to_user_command_try w u ctx
  | admin_update_neg_coll_for_all =>
      admin_update_negotiations_command_try w u ctx
  | admin_get_fresh_resumes => admin_get_fresh_resumes_command_try w u ctx
  | admin_analyze_resumes => admin_anazlyze_resumes_command_try w u ctx
  | admin_update_resume_records_with_applicants_video_status =>
      admin_update_resume_records_with_applicants_video_status_command_try
        w u ctx
  | admin_recommend_resumes => admin_recommend_resumes_command_try w u ctx
  | admin_send_message => admin_send_message_command_try w u ctx
  | admin_pull_file => admin_pull_file_command_try w u ctx
  end.

(** A fresh frame: nothing done yet, no local assigned. *)
Definition start : Frame := mkFrame [] None.

(** The trace and the outcome of one invocation. *)
Definition run {A} (m : M A) : Trace * Result A :=
  let '(f, r) := m start in (trace f, r).

Definition events_of {A} (m : M A) : Trace := fst (run m).
Definition outcome_of {A} (m : M A) : Result A := snd (run m).

(** The pipeline operations called, in order. *)
Definition delegate_calls (t : Trace) : list Delegate :=
  flat_map (fun e => match e with CallDelegate d => [d] | _ => [] end) t.

(** The texts handed to [send_message_to_user], in order. *)
Definition user_messages (t : Trace) : list string :=
  flat_map (fun e => match e with SendMessageToUser s => [s] | _ => [] end) t.

(** The texts handed to [send_message_to_admin], in order. *)
Definition admin_notifications (t : Trace) : list string :=
  flat_map (fun e => match e with SendMessageToAdmin s => [s] | _ => [] end) t.

(** The messages handed to [bot.send_message], in order. *)
Definition bot_messages (t : Trace) : list (Z * string) :=
  flat_map (fun e => match e with
                     | BotSendMessage c s _ => [(c, s)]
                     | _ => []
                     end) t.

(** The file-system and attachment steps: existence checks, opens and
    document sends. *)
Definition is_file_access (e : Event) : bool :=
  match e with
  | PathExists _ | FileOpen _ | FileClose _ | BotSendDocument _ _ _ => true
  | _ => false
  end.

Definition file_accesses (t : Trace) : Trace := filter is_file_access t.

(** The error-level log lines that carry a stack trace ([exc_info=True]). *)
Definition logged_failures (t : Trace) : list string :=
  flat_map (fun e => match e with Log ERROR s true => [s] | _ => [] end) t.

(** The caller is the admin: the gate [not admin_id or bot_user_id !=
    admin_id] lets the caller through. *)
Definition caller_is_admin (w : World) (u : Update) (id : string) : Prop :=
  get_tg_user_data_attribute_from_update_object w u "id" = Ok id
  /\ id = getenv w "ADMIN_ID" ""
  /\ id <> "".

(** The seven readiness-gated commands with their predicate and their
    pipeline operation. *)
Inductive GatedCommand :=
| analyze_sourcing_criteria
| send_sourcing_criteria
| update_negotiations
| fetch_fresh_resumes
| analyze_resumes
| video_status_update
| recommend_resumes.

Definition gated_command (g : GatedCommand) : Command :=
  match g with
  | analyze_sourcing_criteria => admin_analyze_sourcing_criterias
  | send_sourcing_criteria => admin_send_sourcing_criterias_to_user
  | update_negotiations => admin_update_neg_coll_for_all
  | fetch_fresh_resumes => admin_get_fresh_resumes
  | analyze_resumes => admin_analyze_resumes
  | video_status_update =>
      admin_update_resume_records_with_applicants_video_status
  | recommend_resumes => admin_recommend_resumes
  end.

(** The readiness predicate each gated handler consults. *)
Definition readiness (g : GatedCommand) (w : World) : string -> Result bool :=
  match g with
  | analyze_sourcing_criteria => is_vacancy_description_recieved w
  | send_sourcing_criteria => is_vacancy_sourcing_criterias_recieved w
  | update_negotiations => is_vacancy_selected w
  | fetch_fresh_resumes
  | analyze_resumes
  | video_status_update
  | recommend_resumes => is_vacany_data_enough_for_resume_analysis w
  end.

(** Whether a pipeline call is the operation of the gated command, for the
    given target user. *)
Definition is_delegate_of (g : GatedCommand) (target : string) (d : Delegate)
  : bool :=
  match g, d with
  | analyze_sourcing_criteria,
    define_sourcing_criterias_triggered_by_admin_command b => b =? target
  | send_sourcing_criteria,
    send_to_user_sourcing_criterias_triggered_by_admin_command b _ =>
      b =? target
  | update_negotiations, source_negotiations_triggered_by_admin_command b =>
      b =? target
  | fetch_fresh_resumes, source_resumes_triggered_by_admin_command b =>
      b =? target
  | analyze_resumes, analyze_resume_triggered_by_admin_command b =>
      b =? target
  | video_status_update,
    update_resume_records_with_fresh_video_from_applicants_triggered_by_admin_command b _ =>
      b =? target
  | recommend_resumes, recommend_resumes_triggered_by_admin_command b _ =>
      b =? target
  | _, _ => false
  end.

(** The handler called its operation (exactly once, and nothing else of the
    pipeline). *)
Definition calls_its_delegate (g : GatedCommand) (target : string)
  (t : Trace) : bool :=
  match delegate_calls t with
  | [d] => is_delegate_of g target d
  | _ => false
  end.

(** What [send_message_to_admin] appends to the trace: the call itself,
    then either one log line, or the send followed by one log line. *)
Definition admin_report_shape (text : string) (added : Trace) : Prop :=
  (exists lvl msg b, added = [SendMessageToAdmin text; Log lvl msg b])
  \/ (exists chat pm lvl msg b,
        added = [SendMessageToAdmin text; BotSendMessage chat text pm;
                 Log lvl msg b]).

(** The caller named in a failure report. *)
Definition who (f : Frame) : string :=
  match local_bot_user_id f with
  | Some v => v
  | None => "unknown"
  end.



(** The eight commands whose only argument is a user id. *)
Definition takes_one_id (c : Command) : bool :=
  match c with
  | admin_get_users | admin_send_message | admin_pull_file => false
  | _ => true
  end.

(** What follows an exception of the [try] suite, for the handlers whose
    [except] suite only logs and reports. *)
Definition reported (ctx : Context) (e : Exc) (f : Frame) (added : Trace)
  : Prop :=
  match application ctx with
  | Some _ =>
      exists rp,
        admin_report_shape
          (rp ++ exc_str e ++ Py.nl ++ "Admin ID: " ++ who f) added
  | None => added = []
  end.

(** The [except] suite of a handler. *)
Definition handler_except (c : Command) (w : World) (ctx : Context) (e : Exc)
  : M unit :=
  match c with
  | admin_get_users => admin_get_users_command_except w ctx e
  | admin_get_user_status => admin_get_user_status_command_except w ctx e
  | admin_analyze_sourcing_criterias =>
      admin_anazlyze_sourcing_criterais_command_except w ctx e
  | admin_send_sourcing_criterias_to_user =>
      admin_send_sourcing_criterais_to_user_command_except w ctx e
  | admin_update_neg_coll_for_all =>
      admin_update_negotiations_command_except w ctx e
  | admin_get_fresh_resumes => admin_get_fresh_resumes_command_except w ctx e
  | admin_analyze_resumes => admin_anazlyze_resumes_command_except w ctx e
  | admin_update_resume_records_with_applicants_video_status =>
      admin_update_resume_records_with_applicants_video_status_command_except
        w ctx e
  | admin_recommend_resumes => admin_recommend_resumes_command_except w ctx e
  | admin_send_message => admin_send_message_command_except w ctx e
  | admin_pull_file => admin_pull_file_command_except w ctx e
  end.

(** What a gated handler does between the readiness check and its
    pipeline operation returns: analyze-resumes first tells the caller that
    it starts, the video-status update first looks up the target vacancy;
    the other five call the operation at once. *)
Definition before_delegate (g : GatedCommand) (w : World) (target : string)
  : Prop :=
  match g with
  | analyze_resumes =>
      forall t,
        send_message_to_user_outcome w t
          ("Start creating tasks for analysis of the fresh resumes for user " ++ target ++ ".")
        = None
  | video_status_update =>
      exists v, get_target_vacancy_id_from_records w target = Ok v
  | _ => True
  end.

(** The argument errors of the commands that take one user id, each with
    the text of the [ValueError] the handlers raise for it: a list that is
    missing, empty or longer than one; an empty argument; an argument that
    names no user in records. *)
Inductive ArgumentError (w : World) (ctx : Context) : string -> Prop :=
| wrong_count :
    (forall x, args ctx <> Some [x]) ->
    ArgumentError w ctx "Invalid number of arguments."
| empty_argument :
    args ctx = Some [""] ->
    ArgumentError w ctx "Invalid command arguments."
| unknown_user target :
    args ctx = Some [target] ->
    target <> "" ->
    is_user_in_records w target = Ok false ->
    ArgumentError w ctx ("User " ++ target ++ " not found in records.").

(** The validation failures of the commands, as the handlers check them:
    a bad user argument; an unmet readiness predicate; for the file pull a
    wrong argument count, an extension that is not allowed or a missing
    file; for the message relay fewer than two arguments or a first
    argument that is not an integer. *)
Inductive ValidationFailure (w : World) (ctx : Context) : Command -> Prop :=
| bad_user_argument c msg :
    takes_one_id c = true ->
    ArgumentError w ctx msg ->
    ValidationFailure w ctx c
| not_ready g target :
    args ctx = Some [target] ->
    target <> "" ->
    is_user_in_records w target = Ok true ->
    readiness g w target = Ok false ->
    ValidationFailure w ctx (gated_command g)
| pull_wrong_count :
    (forall x, args ctx <> Some [x]) ->
    ValidationFailure w ctx admin_pull_file
| pull_bad_extension rel :
    args ctx = Some [rel] ->
    Py.str_in
      (Pathlib.suffix
         (Pathlib.truediv
            (Pathlib.parse (getenv w "USERS_DATA_DIR" "/users_data")) rel))
      valid_extensions = false ->
    ValidationFailure w ctx admin_pull_file
| pull_missing_file rel :
    args ctx = Some [rel] ->
    path_exists w
      (Pathlib.str
         (Pathlib.truediv
            (Pathlib.parse (getenv w "USERS_DATA_DIR" "/users_data")) rel))
    = false ->
    ValidationFailure w ctx admin_pull_file
| relay_too_few :
    (forall x y l, args ctx <> Some (x :: y :: l)) ->
    ValidationFailure w ctx admin_send_message
| relay_not_integer x y l :
    args ctx = Some (x :: y :: l) ->
    Py.int x = None ->
    ValidationFailure w ctx admin_send_message.

(** The messages handed to [bot.send_message] with their parse mode. *)
Definition bot_sends (t : Trace) : list (Z * string * option ParseMode) :=
  flat_map (fun e => match e with
                     | BotSendMessage c s pm => [(c, s, pm)]
                     | _ => []
                     end) t.

(** The pipeline operation a command calls for a target user, with the
    readiness the handler requires before it and the arguments it passes. *)
Definition pipeline_call (c : Command) (w : World) (ctx : Context)
  (target : string) (d : Delegate) : Prop :=
  match c with
  | admin_get_user_status =>
      d = inform_admin_about_user_readiness target (application ctx)
  | admin_analyze_sourcing_criterias =>
      is_vacancy_description_recieved w target = Ok true
      /\ d = define_sourcing_criterias_triggered_by_admin_command target
  | admin_send_sourcing_criterias_to_user =>
      is_vacancy_sourcing_criterias_recieved w target = Ok true
      /\ d = send_to_user_sourcing_criterias_triggered_by_admin_command
               target (application ctx)
  | admin_update_neg_coll_for_all =>
      is_vacancy_selected w target = Ok true
      /\ d = source_negotiations_triggered_by_admin_command target
  | admin_get_fresh_resumes =>
      is_vacany_data_enough_for_resume_analysis w target = Ok true
      /\ d = source_resumes_triggered_by_admin_command target
  | admin_analyze_resumes =>
      is_vacany_data_enough_for_resume_analysis w target = Ok true
      /\ d = analyze_resume_triggered_by_admin_command target
  | admin_update_resume_records_with_applicants_video_status =>
      is_vacany_data_enough_for_resume_analysis w target = Ok true
      /\ exists v,
           get_target_vacancy_id_from_records w target = Ok v
           /\ d = update_resume_records_with_fresh_video_from_applicants_triggered_by_admin_command
                    target v
  | admin_recommend_resumes =>
      is_vacany_data_enough_for_resume_analysis w target = Ok true
      /\ d = recommend_resumes_triggered_by_admin_command
               target (application ctx)
  | admin_get_users | admin_send_message | admin_pull_file => False
  end.

(** Two worlds that look the same to a caller who is refused: the same
    [ADMIN_ID], the same fixed texts, the same resolved identity for the
    update, and the same chat transport. *)
Record same_front (w1 w2 : World) (u : Update) : Prop := {
  front_admin : getenv w1 "ADMIN_ID" "" = getenv w2 "ADMIN_ID" "";
  front_refusal :
    FAIL_TO_IDENTIFY_USER_AS_ADMIN_TEXT w1 = FAIL_TO_IDENTIFY_USER_AS_ADMIN_TEXT w2;
  front_support : FAIL_TECHNICAL_SUPPORT_TEXT w1 = FAIL_TECHNICAL_SUPPORT_TEXT w2;
  front_identity :
    get_tg_user_data_attribute_from_update_object w1 u "id"
    = get_tg_user_data_attribute_from_update_object w2 u "id";
  front_reply : send_message_to_user_outcome w1 = send_message_to_user_outcome w2;
  front_bot : bot_send_message_outcome w1 = bot_send_message_outcome w2
}.

(** The value of a string of decimal digits. *)
Definition decimal (l : list ascii) : Z :=
  fold_left (fun acc a => (10 * acc + Py.digit_val a)%Z) l 0%Z.

(** [file_path] of the file pull: the data root joined with the argument. *)
Definition file_path_of (w : World) (file_relative_path : string)
  : Pathlib.Path :=
  Pathlib.truediv
    (Pathlib.parse (getenv w "USERS_DATA_DIR" "/users_data"))
    file_relative_path.

(** The stages the file pull can reach on the file system once it has
    checked that the path [p] exists: the check alone; the open; the send
    to the chat of the request followed by the close. *)
Inductive PullStage (w : World) (u : Update) (ctx : Context)
  (p name : string) : Trace -> Prop :=
| stage_checked : PullStage w u ctx p name [PathExists p]
| stage_opened :
    path_exists w p = true ->
    application_and_bot (application ctx) = true ->
    PullStage w u ctx p name [PathExists p; FileOpen p]
| stage_sent chat :
    path_exists w p = true ->
    application_and_bot (application ctx) = true ->
    effective_chat u = Some chat ->
    PullStage w u ctx p name
      [PathExists p; FileOpen p; BotSendDocument chat p name; FileClose p].

(** The world [w] with the environment variable [USERS_DATA_DIR] set to
    [d], or unset. *)
Definition with_data_dir (w : World) (d : option string) : World := {|
  environ := fun k => if k =? "USERS_DATA_DIR" then d else environ w k;
  FAIL_TO_IDENTIFY_USER_AS_ADMIN_TEXT := FAIL_TO_IDENTIFY_USER_AS_ADMIN_TEXT w;
  FAIL_TECHNICAL_SUPPORT_TEXT := FAIL_TECHNICAL_SUPPORT_TEXT w;
  get_tg_user_data_attribute_from_update_object :=
    get_tg_user_data_attribute_from_update_object w;
  get_list_of_users_from_records := get_list_of_users_from_records w;
  get_target_vacancy_id_from_records := get_target_vacancy_id_from_records w;
  is_user_in_records := is_user_in_records w;
  is_vacancy_description_recieved := is_vacancy_description_recieved w;
  is_vacancy_sourcing_criterias_recieved :=
    is_vacancy_sourcing_criterias_recieved w;
  is_vacancy_selected := is_vacancy_selected w;
  is_vacany_data_enough_for_resume_analysis :=
    is_vacany_data_enough_for_resume_analysis w;
  send_message_to_user_outcome := send_message_to_user_outcome w;
  bot_send_message_outcome := bot_send_message_outcome w;
  bot_send_document_outcome := bot_send_document_outcome w;
  delegate_outcome := delegate_outcome w;
  path_exists := path_exists w;
  open_outcome := open_outcome w
|}.

(** A report to the admin: the chat is [int(ADMIN_ID)], no parse mode is
    given, and the text ends with the caller's line. *)
Definition is_admin_report (w : World) (m : Z * string * option ParseMode)
  : Prop :=
  let '(chat, text, pm) := m in
  Py.int (getenv w "ADMIN_ID" "") = Some chat
  /\ pm = None
  /\ exists rp e who', text = rp ++ exc_str e ++ Py.nl ++ "Admin ID: " ++ who'.

(* ===================================================================== *)
(** ** Sample worlds *)
(* ===================================================================== *)

Module Sample.

Definition network_down : Exc := mkExc OtherException "Timed out".

Definition no_sender : Exc :=
  mkExc AttributeError "'NoneType' object has no attribute 'id'".

(** A world given by: the value of [ADMIN_ID]; the users in records;
    whether the readiness predicates hold; what [send_message_to_user]
    answers; whether the bot's own sends go through; the files that
    exist.  Update 0 has no resolvable sender, update 2 comes from user
    ["2"], any other update from user ["1"]. *)
Definition make (admin_id : option string) (in_records : string -> bool)
  (is_ready : bool) (reply : Trace -> string -> option Exc)
  (bot_ok : bool) (files : string -> bool) : World := {|
  environ := fun k => if k =? "ADMIN_ID" then admin_id else None;
  FAIL_TO_IDENTIFY_USER_AS_ADMIN_TEXT := "not authorized";
  FAIL_TECHNICAL_SUPPORT_TEXT := "technical failure";
  get_tg_user_data_attribute_from_update_object := fun u _ =>
    if (update_id u =? 0)%Z then Raise no_sender
    else if (update_id u =? 2)%Z then Ok "2" else Ok "1";
  get_list_of_users_from_records := Ok "['7']";
  get_target_vacancy_id_from_records := fun _ => Ok "v1";
  is_user_in_records := fun r => Ok (in_records r);
  is_vacancy_description_recieved := fun _ => Ok is_ready;
  is_vacancy_sourcing_criterias_recieved := fun _ => Ok is_ready;
  is_vacancy_selected := fun _ => Ok is_ready;
  is_vacany_data_enough_for_resume_analysis := fun _ => Ok is_ready;
  send_message_to_user_outcome := reply;
  bot_send_message_outcome := fun _ _ _ _ =>
    if bot_ok then None else Some network_down;
  bot_send_document_outcome := fun _ _ _ _ =>
    if bot_ok then None else Some network_down;
  delegate_outcome := fun _ _ => None;
  path_exists := files;
  open_outcome := fun _ _ => None
|}.

Definition delivers : Trace -> string -> option Exc := fun _ _ => None.
Definition fails : Trace -> string -> option Exc :=
  fun _ _ => Some network_down.
Definition no_file : string -> bool := fun _ => false.

(** Admin ["1"]; user ["7"] is in records with nothing received; every
    collaborator returns normally; no file exists. *)
Definition calm : World :=
  make (Some "1") (String.eqb "7") false delivers true no_file.

(** As [calm], with every readiness predicate true. *)
Definition ready : World :=
  make (Some "1") (String.eqb "7") true delivers true no_file.

(** As [ready], but [send_message_to_user] always fails. *)
Definition ready_mute : World :=
  make (Some "1") (String.eqb "7") true fails true no_file.

(** As [calm], but [send_message_to_user] always fails. *)
Definition mute : World :=
  make (Some "1") (String.eqb "7") false fails true no_file.

(** As [ready], with every name a user in records. *)
Definition named : World :=
  make (Some "1") (fun _ => true) true delivers true no_file.

(** As [calm], with the one file [/etc/app.log] on the host, reachable
    under both of its names. *)
Definition stray : World :=
  make (Some "1") (String.eqb "7") false delivers true
       (fun p => (p =? "/etc/app.log") || (p =? "/users_data/../etc/app.log")).

(** As [calm], with the file [/users_data/logs/bot.log], and a bot whose
    sends fail. *)
Definition offline : World :=
  make (Some "1") (String.eqb "7") false delivers false
       (String.eqb "/users_data/logs/bot.log").

(** [ADMIN_ID] is not set. *)
Definition unconfigured : World :=
  make None (String.eqb "7") false delivers true no_file.

Definition app : Application := mkApplication (Some TheBot).

Definition from_admin : Update := mkUpdate 1 (Some 1%Z).
Definition from_other : Update := mkUpdate 2 (Some 2%Z).
Definition from_nobody : Update := mkUpdate 0 None.

Definition with_args (l : list string) : Context :=
  mkContext (Some l) (Some app).

End Sample.

(* ===================================================================== *)
(** ** Scenarios *)
(* ===================================================================== *)

Example scenario_get_users :
  run (admin_get_users_command Sample.calm Sample.from_admin (Sample.with_args []))
  = ([Log INFO "admin_get_users_command: started. User_id: 1" false;
      SendMessageToUser "📋 List of users: ['7']"], Ok tt).
Proof. reflexivity. Qed.

Example scenario_non_admin :
  run (admin_get_users_command Sample.calm Sample.from_other (Sample.with_args []))
  = ([Log INFO "admin_get_users_command: started. User_id: 2" false;
      SendMessageToUser "not authorized";
      Log ERROR "Unauthorized for 2" false], Ok tt).
Proof. reflexivity. Qed.

Example scenario_pull_exe :
  run (admin_pull_file_command Sample.calm Sample.from_admin (Sample.with_args ["logs/x.exe"]))
  = ([Log INFO "admin_pull_file_command: started. User_id: 1" false;
      Log ERROR ("admin_pull_file_command: Failed to execute: Invalid file extension." ++ Py.nl ++ "Valid: .log, .json, .mp4") true;
      SendMessageToAdmin ("⚠️ Error admin_pull_file_command: Invalid file extension." ++ Py.nl ++ "Valid: .log, .json, .mp4" ++ Py.nl ++ "Admin ID: 1");
      BotSendMessage 1 ("⚠️ Error admin_pull_file_command: Invalid file extension." ++ Py.nl ++ "Valid: .log, .json, .mp4" ++ Py.nl ++ "Admin ID: 1") None;
      Log DEBUG "send_message_to_admin: Admin notification sent successfully to admin_id: 1" false],
     Ok tt).
Proof. reflexivity. Qed.

Example scenario_send_message :
  run (admin_send_message_command Sample.calm Sample.from_admin
         (Sample.with_args ["555"; "hello"; "there"]))
  = ([Log INFO "admin_send_message_command triggered by user_id: 1" false;
      BotSendMessage 555 "hello there" None;
      SendMessageToUser ("✅ Сообщение отправлено пользователю 555:" ++ Py.nl ++ "'hello there'");
      Log INFO "Admin 1 sent message to user 555: hello there" false],
     Ok tt).
Proof. reflexivity. Qed.

(* ===================================================================== *)
(** ** Library helpers *)
(* ===================================================================== *)

Example int_555 : Py.int "555" = Some 555%Z.
Proof. reflexivity. Qed.

Example int_spaced_signed : Py.int " -1_000 " = Some (-1000)%Z.
Proof. reflexivity. Qed.

Example int_non_numeric : Py.int "12a" = None /\ Py.int "" = None /\ Py.int "1__0" = None.
Proof. repeat split; reflexivity. Qed.

Lemma int_of_empty : Py.int "" = None.
Proof. reflexivity. Qed.

Example path_join_relative :
  Pathlib.str (Pathlib.truediv (Pathlib.parse "/users_data") "logs/manager_bot_logs/1234432.log")
  = "/users_data/logs/manager_bot_logs/1234432.log".
Proof. reflexivity. Qed.

Example path_join_absolute :
  Pathlib.str (Pathlib.truediv (Pathlib.parse "/users_data") "/etc/app.log") = "/etc/app.log".
Proof. reflexivity. Qed.

Example path_suffixes :
  Pathlib.suffix (Pathlib.parse "/users_data/logs/x.exe") = ".exe"
  /\ Pathlib.suffix (Pathlib.parse "/users_data/.log") = ""
  /\ Pathlib.suffix (Pathlib.parse "/users_data/a.tar.json") = ".json"
  /\ Pathlib.suffix (Pathlib.parse "/users_data/a.") = "".
Proof. repeat split; reflexivity. Qed.

(** The tests on [context.args] written in the handlers, against the
    patterns used for them. *)
Lemma one_argument_condition (a : option (list string)) :
  Py.truthy_list a && (Py.len a =? 1)%nat = true <-> exists x, a = Some [x].
Proof.
  split.
  - destruct a as [[|x [|y l]]|]; cbn; try discriminate. eauto.
  - intros (x & ->). reflexivity.
Qed.

Lemma relay_argument_condition (a : option (list string)) :
  negb (Py.truthy_list a) || (Py.len a <? 2)%nat = false
  <-> exists x y l, a = Some (x :: y :: l).
Proof.
  split.
  - destruct a as [[|x [|y l]]|]; cbn; try discriminate. eauto.
  - intros (x & y & l & ->). reflexivity.
Qed.

Lemma valid_extension_cases s :
  Py.str_in s valid_extensions = true
  <-> s = ".log" \/ s = ".json" \/ s = ".mp4".
Proof.
  unfold Py.str_in, valid_extensions. cbn [existsb].
  rewrite !orb_true_iff, !String.eqb_eq. intuition discriminate.
Qed.

Lemma truthy_nonempty s : s <> "" -> Py.truthy s = true.
Proof.
  intros H. unfold Py.truthy. apply String.eqb_neq in H. rewrite H.
  reflexivity.
Qed.

(* ===================================================================== *)
(** ** Reading a trace *)
(* ===================================================================== *)

Lemma delegate_calls_app t1 t2 :
  delegate_calls (t1 ++ t2)%list = (delegate_calls t1 ++ delegate_calls t2)%list.
Proof. apply flat_map_app. Qed.

Lemma user_messages_app t1 t2 :
  user_messages (t1 ++ t2)%list = (user_messages t1 ++ user_messages t2)%list.
Proof. apply flat_map_app. Qed.

Lemma admin_notifications_app t1 t2 :
  admin_notifications (t1 ++ t2)%list
  = (admin_notifications t1 ++ admin_notifications t2)%list.
Proof. apply flat_map_app. Qed.

Lemma bot_messages_app t1 t2 :
  bot_messages (t1 ++ t2)%list = (bot_messages t1 ++ bot_messages t2)%list.
Proof. apply flat_map_app. Qed.


Lemma file_accesses_app t1 t2 :
  file_accesses (t1 ++ t2)%list = (file_accesses t1 ++ file_accesses t2)%list.
Proof. apply filter_app. Qed.




(* ===================================================================== *)
(** ** The notification helper and the report *)
(* ===================================================================== *)

Ltac unfold_monad :=
  unfold logger_debug, logger_info, logger_warning, logger_error in *;
  unfold emit in *;
  unfold bind, try_except, try_except_ValueError, finally, ret, raise,
    reraise, lift, call, assign_bot_user_id, bot_user_id_or_unknown in *.

Lemma send_message_to_admin_total w app text pm f :
  exists added,
    send_message_to_admin w app text pm f
    = (mkFrame (trace f ++ added)%list (local_bot_user_id f), Ok tt)
    /\ admin_report_shape text added.
Proof.
  unfold send_message_to_admin, bot_send_message, int_, admin_report_shape.
  unfold_monad. cbn.
  destruct (Py.truthy (getenv w "ADMIN_ID" "")); cbn.
  2:{ eexists. rewrite <- app_assoc. split; [reflexivity|]. left. do 3 eexists; reflexivity. }
  destruct (application_and_bot app); cbn.
  2:{ eexists. rewrite <- app_assoc. split; [reflexivity|]. left. do 3 eexists; reflexivity. }
  destruct (Py.int (getenv w "ADMIN_ID" "")); cbn.
  2:{ eexists. rewrite <- app_assoc. split; [reflexivity|]. left. do 3 eexists; reflexivity. }
  destruct (bot_send_message_outcome w _ z text pm); cbn.
  all: eexists; rewrite <- !app_assoc; (split; [reflexivity|]); right;
    do 5 eexists; reflexivity.
Qed.

(** A report touches neither the pipeline, nor the caller's chat, nor the
    file system, and is one notification. *)
Lemma admin_report_shape_observed text added :
  admin_report_shape text added ->
  delegate_calls added = []
  /\ user_messages added = []
  /\ file_accesses added = []
  /\ admin_notifications added = [text]
  /\ (bot_messages added = [] \/ exists chat, bot_messages added = [(chat, text)]).
Proof.
  intros [(lvl & msg & b & ->) | (chat & pm & lvl & msg & b & ->)];
    cbn; repeat split; eauto.
Qed.

(** The [except] suite of the handlers other than the message relay: one
    error line with the stack trace, then the report when
    [context.application] is there; it always returns. *)
Lemma report_failure_total w ctx lp rp e f :
  exists added,
    report_failure w ctx lp rp e f
    = (mkFrame (trace f ++ Log ERROR (lp ++ exc_str e) true :: added)%list
               (local_bot_user_id f), Ok tt)
    /\ match application ctx with
       | Some _ =>
           admin_report_shape
             (rp ++ exc_str e ++ Py.nl ++ "Admin ID: " ++ who f) added
       | None => added = []
       end.
Proof.
  unfold report_failure. unfold_monad. cbn.
  destruct (application ctx) as [a|] eqn:Happ.
  - destruct (send_message_to_admin_total w (Some a)
                (rp ++ exc_str e ++ Py.nl ++ "Admin ID: " ++ who f) None
                (mkFrame (trace f ++ [Log ERROR (lp ++ exc_str e) true])%list
                         (local_bot_user_id f)))
      as (added & Hrun & Hshape).
    exists added. unfold who in *. cbn in *. rewrite Hrun.
    rewrite <- app_assoc. split; [reflexivity | exact Hshape].
  - exists []. split; reflexivity.
Qed.

Lemma reported_observed ctx e f added :
  reported ctx e f added ->
  delegate_calls added = []
  /\ user_messages added = []
  /\ file_accesses added = []
  /\ (length (bot_messages added) <= 1)%nat
  /\ match application ctx with
     | Some _ =>
         exists rp,
           admin_notifications added
           = [rp ++ exc_str e ++ Py.nl ++ "Admin ID: " ++ who f]
     | None => admin_notifications added = []
     end.
Proof.
  unfold reported. destruct (application ctx).
  - intros (rp & Hs). apply admin_report_shape_observed in Hs.
    destruct Hs as (H1 & H2 & H3 & H4 & H5). repeat split; auto.
    + destruct H5 as [-> | (chat & ->)]; cbn; lia.
    + eauto.
  - intros ->. cbn. repeat split; auto.
Qed.

(* ===================================================================== *)
(** ** Structure shared by the handlers *)
(* ===================================================================== *)

Ltac unfold_handlers :=
  cbv beta delta [handler_try
    admin_get_users_command_try admin_get_user_status_command_try
    admin_anazlyze_sourcing_criterais_command_try
    admin_send_sourcing_criterais_to_user_command_try
    admin_update_negotiations_command_try admin_get_fresh_resumes_command_try
    admin_anazlyze_resumes_command_try
    admin_update_resume_records_with_applicants_video_status_command_try
    admin_recommend_resumes_command_try admin_send_message_command_try
    admin_pull_file_command_try resolve_bot_user_id send_message_to_user
    delegate bot_send_message bot_send_document with_open exists_
    effective_chat_id int_] in *.

(** Case analysis on every collaborator answer a run in [H] depends on. *)
Ltac split_run H :=
  repeat (cbn beta iota zeta delta [fst snd trace local_bot_user_id negb] in H;
    match type of H with
    | context [match ?x with _ => _ end] =>
        lazymatch x with
        | context [match _ with _ => _ end] => fail
        | _ => destruct x eqn:?
        end
    end).

Lemma handler_is_try_except c w u ctx :
  handler c w u ctx
  = try_except (handler_try c w u ctx) (handler_except c w ctx).
Proof. destruct c; reflexivity. Qed.

Lemma handler_except_is_report c w ctx e :
  c <> admin_send_message ->
  exists lp rp, handler_except c w ctx e = report_failure w ctx lp rp e.
Proof.
  destruct c; intros Hc; try contradiction;
    do 2 eexists; unfold handler_except;
    match goal with |- ?h _ _ _ = _ => unfold h end; reflexivity.
Qed.

Lemma is_message_relay c : c = admin_send_message \/ c <> admin_send_message.
Proof. destruct c; (left; reflexivity) || (right; discriminate). Qed.

Lemma gated_is_not_relay g : gated_command g <> admin_send_message.
Proof. destruct g; discriminate. Qed.

(** A [try] suite that returns is the whole invocation. *)
Lemma run_after_return c w u ctx f :
  handler_try c w u ctx start = (f, Ok tt) ->
  run (handler c w u ctx) = (trace f, Ok tt).
Proof.
  intros H. rewrite handler_is_try_except. unfold run, try_except.
  rewrite H. reflexivity.
Qed.

Lemma run_after_raise c w u ctx f e :
  c <> admin_send_message ->
  handler_try c w u ctx start = (f, Raise e) ->
  exists lp added,
    run (handler c w u ctx)
    = ((trace f ++ Log ERROR (lp ++ exc_str e) true :: added)%list, Ok tt)
    /\ reported ctx e f added.
Proof.
  intros Hc H.
  destruct (handler_except_is_report c w ctx e Hc) as (lp & rp & Hex).
  destruct (report_failure_total w ctx lp rp e f) as (added & Hrun & Hadd).
  exists lp, added. rewrite handler_is_try_except. unfold run, try_except.
  rewrite H, Hex, Hrun. split; [reflexivity|].
  unfold reported. destruct (application ctx); [eauto | exact Hadd].
Qed.

(** Whatever the [try] suite did, the handlers other than the message
    relay return, and what they add after it is at most the error line and
    the report: no pipeline call, nothing to the caller, no file access. *)
Lemma after_try c w u ctx f r :
  c <> admin_send_message ->
  handler_try c w u ctx start = (f, r) ->
  exists rest,
    run (handler c w u ctx) = ((trace f ++ rest)%list, Ok tt)
    /\ delegate_calls rest = []
    /\ user_messages rest = []
    /\ file_accesses rest = []
    /\ (r = Ok tt -> rest = [])
    /\ (forall e, r = Raise e ->
        exists lp added,
          rest = Log ERROR (lp ++ exc_str e) true :: added
          /\ reported ctx e f added).
Proof.
  intros Hc Htry. destruct r as [[]|e].
  - exists []. rewrite app_nil_r.
    rewrite (run_after_return c w u ctx f Htry).
    repeat split; auto. intros e He. discriminate.
  - destruct (run_after_raise c w u ctx f e Hc Htry)
      as (lp & added & Hrun & Hrep).
    exists (Log ERROR (lp ++ exc_str e) true :: added).
    pose proof (reported_observed ctx e f added Hrep) as (Hd & Hu & Hf & _).
    split; [exact Hrun|].
    split; [exact Hd|]. split; [exact Hu|]. split; [exact Hf|].
    split; [discriminate|].
    intros e' He. inversion He; subst e'. eauto.
Qed.

(** The [except] suite of the message relay: the error line, the
    technical-support text to the caller and, if that send returns, the
    report. *)
Lemma send_message_except_run w ctx e f :
  let t1 := (trace f ++ [Log ERROR ("Failed to execute admin_send_message_to_user command: " ++ exc_str e) true])%list in
  match send_message_to_user_outcome w t1 (FAIL_TECHNICAL_SUPPORT_TEXT w) with
  | Some e' =>
      admin_send_message_command_except w ctx e f
      = (mkFrame (t1 ++ [SendMessageToUser (FAIL_TECHNICAL_SUPPORT_TEXT w)])%list
                 (local_bot_user_id f), Raise e')
  | None =>
      exists added,
        admin_send_message_command_except w ctx e f
        = (mkFrame (t1 ++ SendMessageToUser (FAIL_TECHNICAL_SUPPORT_TEXT w)
                       :: added)%list
                   (local_bot_user_id f), Ok tt)
        /\ reported ctx e f added
  end.
Proof.
  intros t1. subst t1.
  unfold admin_send_message_command_except, send_message_to_user, reported.
  unfold_monad. cbn beta iota zeta delta [trace local_bot_user_id fst snd].
  destruct (send_message_to_user_outcome w _ _) eqn:Hs; [reflexivity|].
  destruct (application ctx) as [a|] eqn:Happ.
  - match goal with
    | |- context [send_message_to_admin w ?a ?t ?p ?fr] =>
        destruct (send_message_to_admin_total w a t p fr)
          as (added & Hrun & Hshape)
    end.
    exists added. rewrite Hrun.
    cbn beta iota zeta delta [trace local_bot_user_id fst snd].
    rewrite <- app_assoc. split; [reflexivity|]. eexists. exact Hshape.
  - exists []. split; reflexivity.
Qed.

(** What follows an exception of the [try] suite of the message relay:
    the error line, the technical-support text to the caller and, when
    that send returns, the report. *)
Lemma relay_after_raise w u ctx f e :
  handler_try admin_send_message w u ctx start = (f, Raise e) ->
  exists rest,
    events_of (handler admin_send_message w u ctx)
    = (trace f
       ++ Log ERROR ("Failed to execute admin_send_message_to_user command: " ++ exc_str e) true
       :: SendMessageToUser (FAIL_TECHNICAL_SUPPORT_TEXT w) :: rest)%list
    /\ delegate_calls rest = []
    /\ user_messages rest = []
    /\ file_accesses rest = []
    /\ (length (admin_notifications rest) <= 1)%nat
    /\ (length (bot_messages rest) <= 1)%nat
    /\ ((forall t, send_message_to_user_outcome w t
                     (FAIL_TECHNICAL_SUPPORT_TEXT w) = None) ->
        outcome_of (handler admin_send_message w u ctx) = Ok tt
        /\ reported ctx e f rest).
Proof.
  intros Htry. unfold events_of, outcome_of, run.
  rewrite handler_is_try_except. unfold try_except. rewrite Htry.
  unfold handler_except.
  pose proof (send_message_except_run w ctx e f) as Hex. cbn zeta in Hex.
  destruct (send_message_to_user_outcome w _ (FAIL_TECHNICAL_SUPPORT_TEXT w))
    as [e'|] eqn:Hsend.
  - rewrite Hex. exists []. cbn [fst snd trace].
    rewrite <- app_assoc. cbn.
    do 4 (split; [reflexivity|]). do 2 (split; [cbn; lia|]).
    intros H. rewrite H in Hsend. discriminate.
  - destruct Hex as (added & -> & Hrep). exists added. cbn [fst snd trace].
    rewrite <- app_assoc. cbn [app].
    pose proof (reported_observed ctx e f added Hrep)
      as (Hd & Hu & Hf & Hb & Hn).
    split; [reflexivity|]. do 3 (split; [assumption|]).
    split; [|split; [assumption|intros _; split; [reflexivity|assumption]]].
    destruct (application ctx).
    + destruct Hn as (rp & ->). cbn. lia.
    + rewrite Hn. cbn. lia.
Qed.

(** Everything sent to the caller by a handler other than the message
    relay is sent by its [try] suite. *)
Lemma user_messages_of_try c w u ctx f r :
  c <> admin_send_message ->
  handler_try c w u ctx start = (f, r) ->
  user_messages (events_of (handler c w u ctx)) = user_messages (trace f).
Proof.
  intros Hc Htry.
  destruct (after_try c w u ctx f r Hc Htry) as (rest & Hrun & _ & Hu & _).
  unfold events_of. rewrite Hrun. cbn [fst].
  rewrite user_messages_app, Hu. apply app_nil_r.
Qed.

(** After an exception of its [try] suite the message relay sends the
    technical-support text to the caller, and nothing else. *)
Lemma user_messages_of_failed_relay w u ctx f e :
  handler_try admin_send_message w u ctx start = (f, Raise e) ->
  user_messages (events_of (handler admin_send_message w u ctx))
  = (user_messages (trace f) ++ [FAIL_TECHNICAL_SUPPORT_TEXT w])%list.
Proof.
  intros Htry.
  destruct (relay_after_raise w u ctx f e Htry) as (rest & Hev & _ & Hu & _).
  rewrite Hev, user_messages_app. unfold user_messages in *. cbn.
  rewrite Hu. reflexivity.
Qed.

(** The local [bot_user_id] after the [try] suite: assigned exactly when
    identity resolution returned. *)
Lemma try_assigns_caller c w u ctx f r :
  handler_try c w u ctx start = (f, r) ->
  local_bot_user_id f
  = match get_tg_user_data_attribute_from_update_object w u "id" with
    | Ok id => Some id
    | Raise _ => None
    end.
Proof.
  intros H. destruct c; unfold_handlers; unfold_monad; unfold start in H.
  all: split_run H.
  all: inversion H; subst; reflexivity.
Qed.


(** The [try] suites never call the notification helper themselves. *)
Lemma try_does_not_notify c w u ctx f r :
  handler_try c w u ctx start = (f, r) ->
  admin_notifications (trace f) = [].
Proof.
  intros H. destruct c; unfold_handlers; unfold_monad; unfold start in H.
  all: split_run H.
  all: inversion H; subst; reflexivity.
Qed.


(* ===================================================================== *)
(** ** Passing and failing the gate *)
(* ===================================================================== *)

Lemma not_admin_true w id :
  id <> getenv w "ADMIN_ID" "" \/ getenv w "ADMIN_ID" "" = "" ->
  not_admin (getenv w "ADMIN_ID" "") id = true.
Proof.
  unfold not_admin, Py.truthy. intros [H | H].
  - apply String.eqb_neq in H. rewrite H. apply orb_true_r.
  - rewrite H. reflexivity.
Qed.

Lemma not_admin_false w u id :
  caller_is_admin w u id -> not_admin (getenv w "ADMIN_ID" "") id = false.
Proof.
  intros (_ & Heq & Hne). unfold not_admin, Py.truthy. rewrite <- Heq.
  rewrite String.eqb_refl. apply String.eqb_neq in Hne. rewrite Hne.
  reflexivity.
Qed.

(** The authorization gate: a refused caller gets the fixed text, and the
    [try] suite ends there. *)
Lemma gate_refuses c w u ctx id :
  get_tg_user_data_attribute_from_update_object w u "id" = Ok id ->
  not_admin (getenv w "ADMIN_ID" "") id = true ->
  exists started,
    handler_try c w u ctx start
    = match send_message_to_user_outcome w [Log INFO started false]
              (FAIL_TO_IDENTIFY_USER_AS_ADMIN_TEXT w) with
      | None =>
          (mkFrame [Log INFO started false;
                    SendMessageToUser (FAIL_TO_IDENTIFY_USER_AS_ADMIN_TEXT w);
                    Log ERROR ("Unauthorized for " ++ id) false] (Some id),
           Ok tt)
      | Some e =>
          (mkFrame [Log INFO started false;
                    SendMessageToUser (FAIL_TO_IDENTIFY_USER_AS_ADMIN_TEXT w)]
                   (Some id),
           Raise e)
      end.
Proof.
  intros Hid Hgate.
  destruct c; unfold_handlers; unfold_monad; rewrite Hid; cbn;
    rewrite Hgate; cbn;
    match goal with
    | |- context [send_message_to_user_outcome w [Log INFO ?s false] ?x] =>
        exists s; destruct (send_message_to_user_outcome w [Log INFO s false] x)
    end; reflexivity.
Qed.

(** Entering the [try] suite recorded in [H] as the admin: the identity is
    resolved and the gate is passed. *)
Ltac as_admin_in Hadm H :=
  let Hgate := fresh "Hgate" in
  pose proof (not_admin_false _ _ _ Hadm) as Hgate;
  let Hid := fresh "Hid" in
  pose proof (proj1 Hadm) as Hid;
  unfold_handlers; unfold_monad; unfold start in H;
  rewrite Hid in H;
  cbn beta iota zeta delta [fst snd trace local_bot_user_id] in H;
  rewrite Hgate in H;
  cbn beta iota zeta delta [fst snd trace local_bot_user_id] in H.

Ltac step_in H :=
  cbn beta iota zeta delta [fst snd trace local_bot_user_id app negb] in H.

(** A bad user argument ends the [try] suite right after its first log
    line, with the [ValueError] of that argument error. *)
Lemma argument_error_try c w u ctx id msg :
  takes_one_id c = true ->
  caller_is_admin w u id ->
  ArgumentError w ctx msg ->
  exists started,
    handler_try c w u ctx start
    = (mkFrame [Log INFO started false] (Some id),
       Raise (mkExc ValueError msg)).
Proof.
  intros Hone Hadm Herr.
  destruct (handler_try c w u ctx start) as [f r] eqn:Htry.
  destruct c; try discriminate Hone; as_admin_in Hadm Htry;
    (destruct Herr as [Hcount | Hempty | target Hargs Hne Hrec];
     [ destruct (args ctx) as [[|a [|b l]]|];
       [ | exfalso; apply (Hcount a); reflexivity | | ]
     | rewrite Hempty in Htry
     | apply truthy_nonempty in Hne; rewrite Hargs, Hne, Hrec in Htry ]);
    step_in Htry; inversion Htry; subst f r; eexists; reflexivity.
Qed.

(** The same text in every world: an admin request for a user in records
    whose vacancy is not selected, or whose sourcing criteria are not
    received, raises the text of the resume-analysis precondition. *)
Lemma unselected_vacancy_error_text w u ctx id target :
  caller_is_admin w u id ->
  args ctx = Some [target] ->
  target <> "" ->
  is_user_in_records w target = Ok true ->
  (is_vacancy_selected w target = Ok false ->
   outcome_of (admin_update_negotiations_command_try w u ctx)
   = Raise (mkExc ValueError
              ("User " ++ target ++ " does not have enough vacancy data for resume analysis.")))
  /\ (is_vacancy_sourcing_criterias_recieved w target = Ok false ->
      outcome_of (admin_send_sourcing_criterais_to_user_command_try w u ctx)
      = Raise (mkExc ValueError
                 ("User " ++ target ++ " does not have enough vacancy data for resume analysis."))).
Proof.
  intros Hadm Hargs Hne Hrec. apply truthy_nonempty in Hne.
  split; intros Hready; unfold outcome_of, run.
  - destruct (admin_update_negotiations_command_try w u ctx start)
      as [f r] eqn:Htry.
    as_admin_in Hadm Htry. rewrite Hargs, Hne, Hrec in Htry. step_in Htry.
    rewrite Hready in Htry. step_in Htry. inversion Htry. reflexivity.
  - destruct (admin_send_sourcing_criterais_to_user_command_try w u ctx start)
      as [f r] eqn:Htry.
    as_admin_in Hadm Htry. rewrite Hargs, Hne, Hrec in Htry. step_in Htry.
    rewrite Hready in Htry. step_in Htry. inversion Htry. reflexivity.
Qed.

(* ===================================================================== *)
(** ** The authorization gate *)
(* ===================================================================== *)



(* ===================================================================== *)
(** ** File retrieval *)
(* ===================================================================== *)




(** A caller who is not the admin asks for [logs/x.exe]: the extension is
    not an allowed one, yet no validation error is raised; the handler
    sends the unauthorized text and returns. *)
Lemma pull_file_bad_extension_without_error :
  Py.str_in
    (Pathlib.suffix
       (Pathlib.truediv
          (Pathlib.parse (getenv Sample.calm "USERS_DATA_DIR" "/users_data"))
          "logs/x.exe"))
    valid_extensions = false
  /\ run (admin_pull_file_command_try Sample.calm Sample.from_other
            (Sample.with_args ["logs/x.exe"]))
     = ([Log INFO "admin_pull_file_command: started. User_id: 2" false;
         SendMessageToUser "not authorized";
         Log ERROR "Unauthorized for 2" false], Ok tt)
  /\ logged_failures
       (events_of (admin_pull_file_command Sample.calm Sample.from_other
                     (Sample.with_args ["logs/x.exe"]))) = []
  /\ admin_notifications
       (events_of (admin_pull_file_command Sample.calm Sample.from_other
                     (Sample.with_args ["logs/x.exe"]))) = [].
Proof. repeat split; reflexivity. Qed.

(** C3, amended.  When the single argument resolves to a path whose
    extension is not [.log], [.json] or [.mp4], no invocation checks the
    existence of, opens or sends any file; and when the caller is the
    admin the [try] suite raises the extension error right after its first
    log line. *)
Theorem pull_file_bad_extension_never_touches_files w u ctx rel :
  args ctx = Some [rel] ->
  Py.str_in
    (Pathlib.suffix
       (Pathlib.truediv
          (Pathlib.parse (getenv w "USERS_DATA_DIR" "/users_data")) rel))
    valid_extensions = false ->
  file_accesses (events_of (admin_pull_file_command w u ctx)) = []
  /\ (forall id,
        caller_is_admin w u id ->
        run (admin_pull_file_command_try w u ctx)
        = ([Log INFO ("admin_pull_file_command: started. User_id: " ++ id) false],
           Raise (mkExc ValueError
                    ("Invalid file extension." ++ Py.nl ++ "Valid: .log, .json, .mp4")))).
Proof.
  intros Hargs Hext. split.
  - destruct (handler_try admin_pull_file w u ctx start) as [f r] eqn:Htry.
    destruct (after_try admin_pull_file w u ctx f r ltac:(discriminate) Htry)
      as (rest & Hrun & _ & _ & Hf & _).
    change (admin_pull_file_command w u ctx)
      with (handler admin_pull_file w u ctx).
    unfold events_of. rewrite Hrun. cbn [fst].
    rewrite file_accesses_app, Hf, app_nil_r.
    unfold_handlers; unfold_monad; unfold start in Htry.
    rewrite Hargs in Htry. cbn beta iota zeta in Htry.
    rewrite Hext in Htry.
    split_run Htry; inversion Htry; subst; reflexivity.
  - intros id Hadm.
    unfold run.
    destruct (admin_pull_file_command_try w u ctx start) as [f r] eqn:Htry.
    as_admin_in Hadm Htry. rewrite Hargs in Htry. step_in Htry.
    rewrite Hext in Htry. cbn [negb] in Htry. step_in Htry.
    inversion Htry; subst. reflexivity.
Qed.

Lemma pull_file_bad_extension_never_touches_files_witness :
  file_accesses
    (events_of (admin_pull_file_command Sample.stray Sample.from_admin
                  (Sample.with_args ["/etc/app.exe"]))) = [].
Proof.
  apply (pull_file_bad_extension_never_touches_files
           Sample.stray Sample.from_admin (Sample.with_args ["/etc/app.exe"])
           "/etc/app.exe" eq_refl eq_refl).
Defined.

(* ===================================================================== *)
(** ** Readiness gating *)
(* ===================================================================== *)

(** The admin asks to analyze the resumes of user 7, who is in records and
    ready, while the chat transport is down: the message that announces
    the start fails, and the pipeline operation is never called. *)
Lemma analyze_resumes_ready_but_not_called :
  is_user_in_records Sample.ready_mute "7" = Ok true
  /\ readiness analyze_resumes Sample.ready_mute "7" = Ok true
  /\ run (admin_anazlyze_resumes_command_try Sample.ready_mute
            Sample.from_admin (Sample.with_args ["7"]))
     = ([Log INFO "admin_anazlyze_resumes_command: started. User_id: 1" false;
         SendMessageToUser "Start creating tasks for analysis of the fresh resumes for user 7."],
        Raise Sample.network_down)
  /\ delegate_calls
       (events_of (handler (gated_command analyze_resumes) Sample.ready_mute
                     Sample.from_admin (Sample.with_args ["7"]))) = []
  /\ calls_its_delegate analyze_resumes "7"
       (events_of (handler (gated_command analyze_resumes) Sample.ready_mute
                     Sample.from_admin (Sample.with_args ["7"]))) = false.
Proof. repeat split; reflexivity. Qed.

(** C4, amended.  For a readiness-gated command sent by the admin with one
    non-empty argument naming a user in records: a pipeline operation is
    called only if the readiness predicate returned true; and when it
    returned true the handler calls its own operation, once and for that
    user, provided the step it takes before the operation returns. *)
Theorem gated_delegate_iff_ready g w u ctx id target b :
  caller_is_admin w u id ->
  args ctx = Some [target] ->
  target <> "" ->
  is_user_in_records w target = Ok true ->
  readiness g w target = Ok b ->
  (delegate_calls (events_of (handler (gated_command g) w u ctx)) <> [] ->
   b = true)
  /\ (b = true ->
      before_delegate g w target ->
      calls_its_delegate g target
        (events_of (handler (gated_command g) w u ctx)) = true).
Proof.
  intros Hadm Hargs Hne Hrec Hready.
  apply truthy_nonempty in Hne.
  destruct (handler_try (gated_command g) w u ctx start) as [f r] eqn:Htry.
  destruct (after_try (gated_command g) w u ctx f r (gated_is_not_relay g) Htry)
    as (rest & Hrun & Hd & _).
  unfold events_of, calls_its_delegate. rewrite Hrun. cbn [fst].
  rewrite delegate_calls_app, Hd, app_nil_r. clear Hrun Hd rest.
  destruct g; cbn [gated_command readiness before_delegate] in *;
    as_admin_in Hadm Htry;
    rewrite Hargs, Hne, Hrec in Htry; step_in Htry;
    rewrite Hready in Htry; step_in Htry;
    (destruct b;
     [ split; [reflexivity|]; intros _ Hbefore
     | split; [|discriminate];
       inversion Htry; subst f r; intros H; exfalso; apply H; reflexivity ]).
  all: try (destruct Hbefore as (v & Hv); rewrite Hv in Htry; step_in Htry).
  all: try (rewrite Hbefore in Htry; step_in Htry).
  all: split_run Htry; inversion Htry; subst f r;
    cbn [trace delegate_calls flat_map app is_delegate_of];
    apply String.eqb_refl.
Qed.

Lemma gated_delegate_iff_ready_witness :
  calls_its_delegate update_negotiations "7"
    (events_of (handler (gated_command update_negotiations) Sample.ready
                  Sample.from_admin (Sample.with_args ["7"]))) = true.
Proof.
  assert (Hadm : caller_is_admin Sample.ready Sample.from_admin "1").
  { split; [reflexivity|]. split; [reflexivity|].
    intros H. discriminate H. }
  assert (Hne : "7" <> "") by (intros H; discriminate H).
  apply (proj2 (gated_delegate_iff_ready update_negotiations Sample.ready
                  Sample.from_admin (Sample.with_args ["7"]) "1" "7" true
                  Hadm eq_refl Hne eq_refl eq_refl) eq_refl I).
Defined.

(* ===================================================================== *)
(** ** Argument validation *)
(* ===================================================================== *)

(** Three invocations by the admin.  [/admin_get_fresh_resumes abc], when
    records know a user named [abc]: the argument is not numeric, no error
    is raised and the pipeline operation runs.  [/admin_send_message 555
    hello]: two arguments, no error, no notification.
    [/admin_get_fresh_resumes] without argument and without
    [context.application]: the error is raised and no notification is
    made. *)
Lemma numeric_argument_is_not_checked :
  (Py.int "abc" = None
   /\ run (admin_get_fresh_resumes_command Sample.named Sample.from_admin
             (Sample.with_args ["abc"]))
      = ([Log INFO "admin_get_fresh_resumes_command: started. User_id: 1" false;
          CallDelegate (source_resumes_triggered_by_admin_command "abc");
          SendMessageToUser "Fresh resumes collected for user abc."],
         Ok tt))
  /\ (outcome_of (admin_send_message_command_try Sample.calm Sample.from_admin
                    (Sample.with_args ["555"; "hello"])) = Ok tt
      /\ admin_notifications
           (events_of (admin_send_message_command Sample.calm
                         Sample.from_admin (Sample.with_args ["555"; "hello"])))
         = [])
  /\ (outcome_of (admin_get_fresh_resumes_command_try Sample.calm
                    Sample.from_admin (mkContext (Some []) None))
      = Raise (mkExc ValueError "Invalid number of arguments.")
      /\ admin_notifications
           (events_of (admin_get_fresh_resumes_command Sample.calm
                         Sample.from_admin (mkContext (Some []) None)))
         = []).
Proof. repeat split; reflexivity. Qed.

(** C5, amended.  For each of the eight commands taking one user id, an
    invocation by the admin with no argument, with two or more arguments,
    with an empty argument or with an argument naming no user in records
    raises a [ValueError] right after the first log line; the handler
    returns, calls no pipeline operation, sends nothing to the caller, and
    calls the notification helper exactly once when [context.application]
    is set and not at all otherwise. *)
Theorem bad_user_argument_is_refused c w u ctx id msg :
  takes_one_id c = true ->
  caller_is_admin w u id ->
  ArgumentError w ctx msg ->
  (exists started,
     run (handler_try c w u ctx)
     = ([Log INFO started false], Raise (mkExc ValueError msg)))
  /\ outcome_of (handler c w u ctx) = Ok tt
  /\ delegate_calls (events_of (handler c w u ctx)) = []
  /\ user_messages (events_of (handler c w u ctx)) = []
  /\ match application ctx with
     | Some _ =>
         exists rp,
           admin_notifications (events_of (handler c w u ctx))
           = [rp ++ msg ++ Py.nl ++ "Admin ID: " ++ id]
     | None => admin_notifications (events_of (handler c w u ctx)) = []
     end.
Proof.
  intros Hone Hadm Herr.
  assert (Hc : c <> admin_send_message) by (destruct c; discriminate).
  pose proof (argument_error_try c w u ctx id msg Hone Hadm Herr) as Htry.
  destruct Htry as (started & Htry).
  destruct (after_try c w u ctx _ _ Hc Htry)
    as (rest & Hrun & Hd & Hu & _ & _ & Hrest).
  destruct (Hrest _ eq_refl) as (lp & added & -> & Hrep).
  apply reported_observed in Hrep. destruct Hrep as (_ & _ & _ & _ & Hn).
  split.
  { exists started. unfold run. rewrite Htry. reflexivity. }
  unfold outcome_of, events_of. rewrite Hrun. cbn [fst snd trace].
  rewrite delegate_calls_app, user_messages_app, admin_notifications_app,
    Hd, Hu.
  split; [reflexivity|]. split; [reflexivity|]. split; [reflexivity|].
  unfold who in Hn. cbn [local_bot_user_id exc_str] in Hn.
  cbn [admin_notifications flat_map app].
  destruct (application ctx); [|exact Hn].
  destruct Hn as (rp & Hn). exists rp. exact Hn.
Qed.

Lemma bad_user_argument_is_refused_witness :
  delegate_calls
    (events_of (handler admin_get_fresh_resumes Sample.ready Sample.from_admin
                  (Sample.with_args ["7"; "8"]))) = []
  /\ exists rp,
       admin_notifications
         (events_of (handler admin_get_fresh_resumes Sample.ready
                       Sample.from_admin (Sample.with_args ["7"; "8"])))
       = [rp ++ "Invalid number of arguments." ++ Py.nl ++ "Admin ID: " ++ "1"].
Proof.
  assert (Hadm : caller_is_admin Sample.ready Sample.from_admin "1").
  { split; [reflexivity|]. split; [reflexivity|].
    intros H. discriminate H. }
  assert (Herr : ArgumentError Sample.ready (Sample.with_args ["7"; "8"])
                   "Invalid number of arguments.").
  { apply wrong_count. intros x H. discriminate H. }
  destruct (bad_user_argument_is_refused admin_get_fresh_resumes Sample.ready
              Sample.from_admin (Sample.with_args ["7"; "8"]) "1" _
              eq_refl Hadm Herr)
    as (_ & _ & Hd & _ & Hn).
  split; [exact Hd | exact Hn].
Defined.

(* ===================================================================== *)
(** ** Failures: what is caught and what is reported *)
(* ===================================================================== *)

(** Three failures.  The admin sends [/admin_send_message] without
    arguments while the chat transport is down: the exception of the
    technical-support message leaves the handler, and nothing is reported.
    A sender that cannot be identified, with [ADMIN_ID] unset: the helper
    is called and sends nothing.  A missing argument without
    [context.application]: the helper is not called. *)
Lemma failure_not_reported_or_not_caught :
  (outcome_of (admin_send_message_command Sample.mute Sample.from_admin
                 (Sample.with_args []))
   = Raise Sample.network_down
   /\ admin_notifications
        (events_of (admin_send_message_command Sample.mute Sample.from_admin
                      (Sample.with_args []))) = [])
  /\ (outcome_of (admin_get_users_command_try Sample.unconfigured
                    Sample.from_nobody)
      = Raise Sample.no_sender
      /\ bot_messages
           (events_of (admin_get_users_command Sample.unconfigured
                         Sample.from_nobody (Sample.with_args []))) = [])
  /\ (outcome_of (admin_get_user_status_command_try Sample.calm
                    Sample.from_admin (mkContext None None))
      = Raise (mkExc ValueError "Invalid number of arguments.")
      /\ admin_notifications
           (events_of (admin_get_user_status_command Sample.calm
                         Sample.from_admin (mkContext None None))) = []).
Proof. repeat split; reflexivity. Qed.

(** C6, amended.  An exception raised in the [try] suite of a handler is
    caught and logged with its stack trace.  The caller named in the
    report is the resolved id, or ["unknown"] when identity resolution
    raised.  After the error line the handler calls no pipeline operation,
    calls the notification helper at most once, and the helper sends at
    most one message.  For every handler but the message relay (and for
    the message relay when its technical-support message goes through) the
    handler returns, and the helper is called exactly once with the
    exception text and the caller when [context.application] is set, and
    not at all otherwise. *)
Theorem failures_are_caught_and_reported c w u ctx f e :
  handler_try c w u ctx start = (f, Raise e) ->
  who f = match get_tg_user_data_attribute_from_update_object w u "id" with
          | Ok id => id
          | Raise _ => "unknown"
          end
  /\ exists lp rest,
       events_of (handler c w u ctx)
       = (trace f ++ Log ERROR (lp ++ exc_str e) true :: rest)%list
       /\ admin_notifications (events_of (handler c w u ctx))
          = admin_notifications rest
       /\ (length (admin_notifications rest) <= 1)%nat
       /\ (length (bot_messages rest) <= 1)%nat
       /\ delegate_calls rest = []
       /\ ((c <> admin_send_message
            \/ forall t, send_message_to_user_outcome w t
                           (FAIL_TECHNICAL_SUPPORT_TEXT w) = None) ->
           outcome_of (handler c w u ctx) = Ok tt
           /\ match application ctx with
              | Some _ =>
                  exists rp,
                    admin_notifications rest
                    = [rp ++ exc_str e ++ Py.nl ++ "Admin ID: " ++ who f]
              | None => admin_notifications rest = []
              end).
Proof.
  intros Htry. split.
  { unfold who. rewrite (try_assigns_caller c w u ctx f _ Htry).
    destruct (get_tg_user_data_attribute_from_update_object w u "id");
      reflexivity. }
  pose proof (try_does_not_notify c w u ctx f _ Htry) as Hquiet.
  destruct (is_message_relay c) as [-> | Hc].
  - destruct (relay_after_raise w u ctx f e Htry)
      as (rest & Hev & Hd & Hu & Hf & Hn & Hb & Hok).
    exists "Failed to execute admin_send_message_to_user command: ".
    exists (SendMessageToUser (FAIL_TECHNICAL_SUPPORT_TEXT w) :: rest).
    split; [exact Hev|]. rewrite Hev.
    rewrite admin_notifications_app, Hquiet.
    split; [reflexivity|].
    split; [exact Hn|]. split; [exact Hb|]. split; [exact Hd|].
    intros [Hc | Hsend]; [contradiction|].
    destruct (Hok Hsend) as (Hret & Hrep). split; [exact Hret|].
    apply reported_observed in Hrep. destruct Hrep as (_ & _ & _ & _ & Hrep).
    exact Hrep.
  - destruct (run_after_raise c w u ctx f e Hc Htry)
      as (lp & added & Hrun & Hrep).
    pose proof (reported_observed ctx e f added Hrep)
      as (Hd & Hu & Hf & Hb & Hn).
    exists lp, added. unfold events_of, outcome_of. rewrite Hrun.
    cbn [fst snd]. split; [reflexivity|].
    rewrite admin_notifications_app, Hquiet.
    split; [reflexivity|].
    split.
    { destruct (application ctx).
      - destruct Hn as (rp & ->). cbn. lia.
      - rewrite Hn. cbn. lia. }
    split; [exact Hb|]. split; [exact Hd|].
    intros _. split; [reflexivity | exact Hn].
Qed.

Lemma failures_are_caught_and_reported_witness :
  outcome_of (handler admin_pull_file Sample.calm Sample.from_nobody
                (Sample.with_args ["logs/bot.log"])) = Ok tt
  /\ exists rp,
       admin_notifications
         (events_of (handler admin_pull_file Sample.calm Sample.from_nobody
                       (Sample.with_args ["logs/bot.log"])))
       = [rp ++ "'NoneType' object has no attribute 'id'" ++ Py.nl
             ++ "Admin ID: " ++ "unknown"].
Proof.
  destruct (failures_are_caught_and_reported admin_pull_file Sample.calm
              Sample.from_nobody (Sample.with_args ["logs/bot.log"])
              start Sample.no_sender eq_refl)
    as (_ & lp & rest & _ & Hall & _ & _ & _ & Hok).
  assert (Hc : admin_pull_file <> admin_send_message) by (intros H; discriminate H).
  destruct (Hok (or_introl Hc)) as (Hret & rp & Hn).
  split; [exact Hret|]. exists rp. rewrite Hall. exact Hn.
Defined.

(* ===================================================================== *)
(** ** Failures: what the caller is sent *)
(* ===================================================================== *)

(** Two invocations by the admin.  [/admin_send_message] without
    arguments: a validation failure, and the caller receives the
    technical-support text.  [/admin_pull_file logs/bot.log] when the
    delivery of the document fails: the caller receives nothing. *)
Lemma caller_messages_on_failure :
  (outcome_of (admin_send_message_command_try Sample.calm Sample.from_admin
                 (Sample.with_args []))
   = Raise (mkExc ValueError "Invalid number of arguments.")
   /\ user_messages
        (events_of (admin_send_message_command Sample.calm Sample.from_admin
                      (Sample.with_args [])))
      = ["technical failure"])
  /\ (run (admin_pull_file_command_try Sample.offline Sample.from_admin
             (Sample.with_args ["logs/bot.log"]))
      = ([Log INFO "admin_pull_file_command: started. User_id: 1" false;
          PathExists "/users_data/logs/bot.log";
          FileOpen "/users_data/logs/bot.log";
          BotSendDocument 1 "/users_data/logs/bot.log" "bot.log";
          FileClose "/users_data/logs/bot.log"],
         Raise (mkExc TelegramError
                  "Failed to send file '/users_data/logs/bot.log': Timed out"))
      /\ user_messages
           (events_of (admin_pull_file_command Sample.offline Sample.from_admin
                         (Sample.with_args ["logs/bot.log"])))
         = []).
Proof. repeat split; reflexivity. Qed.

(** C7, amended.  For an invocation by the admin: a validation failure of
    any command but the message relay sends nothing to the caller; a
    validation failure of the message relay sends the caller the
    technical-support text; the file pull never sends the caller a
    message, whatever fails; the message relay ends every failure of its
    [try] suite by sending the caller the technical-support text; and
    when the message relay passes validation and the delivery to the
    target raises, the caller is sent the delivery-failure line followed
    by the technical-support text. *)
Theorem validation_failures_and_the_caller w u ctx id :
  caller_is_admin w u id ->
  (forall c,
     ValidationFailure w ctx c ->
     user_messages (events_of (handler c w u ctx))
     = match c with
       | admin_send_message => [FAIL_TECHNICAL_SUPPORT_TEXT w]
       | _ => []
       end)
  /\ user_messages (events_of (handler admin_pull_file w u ctx)) = []
  /\ (forall f e,
        handler_try admin_send_message w u ctx start = (f, Raise e) ->
        user_messages (events_of (handler admin_send_message w u ctx))
        = (user_messages (trace f) ++ [FAIL_TECHNICAL_SUPPORT_TEXT w])%list)
  /\ (forall x y l n e,
        args ctx = Some (x :: y :: l) ->
        Py.int x = Some n ->
        application_and_bot (application ctx) = true ->
        (forall t, bot_send_message_outcome w t n (Py.join " " (y :: l)) None
                   = Some e) ->
        user_messages (events_of (handler admin_send_message w u ctx))
        = ["❌ Не удалось отправить сообщение пользователю " ++ x ++ ": " ++ exc_str e;
           FAIL_TECHNICAL_SUPPORT_TEXT w]).
Proof.
  intros Hadm. split; [|split; [|split]].
  - intros c Hvf.
    destruct (handler_try c w u ctx start) as [f r] eqn:Htry.
    destruct Hvf as [c msg Hone Herr | g target Hargs Hne Hrec Hready
                    | Hcount | rel Hargs Hext | rel Hargs Hmissing
                    | Hfew | x y l Hargs Hint].
    + destruct (argument_error_try c w u ctx id msg Hone Hadm Herr)
        as (started & Htry').
      rewrite Htry' in Htry. inversion Htry; subst f r.
      assert (Hc : c <> admin_send_message) by (destruct c; discriminate).
      rewrite (user_messages_of_try c w u ctx _ _ Hc Htry').
      destruct c; try discriminate Hone; reflexivity.
    + rewrite (user_messages_of_try _ w u ctx f r (gated_is_not_relay g) Htry).
      apply truthy_nonempty in Hne.
      destruct g; cbn [gated_command readiness] in *;
        as_admin_in Hadm Htry;
        rewrite Hargs, Hne, Hrec in Htry; step_in Htry;
        rewrite Hready in Htry; step_in Htry;
        inversion Htry; subst f r; reflexivity.
    + rewrite (user_messages_of_try admin_pull_file w u ctx f r ltac:(discriminate) Htry).
      as_admin_in Hadm Htry.
      destruct (args ctx) as [[|a [|b l]]|];
        [ | exfalso; apply (Hcount a); reflexivity | | ];
        step_in Htry; inversion Htry; subst f r; reflexivity.
    + rewrite (user_messages_of_try admin_pull_file w u ctx f r ltac:(discriminate) Htry).
      as_admin_in Hadm Htry. rewrite Hargs in Htry. step_in Htry.
      rewrite Hext in Htry. step_in Htry.
      inversion Htry; subst f r; reflexivity.
    + rewrite (user_messages_of_try admin_pull_file w u ctx f r ltac:(discriminate) Htry).
      as_admin_in Hadm Htry. rewrite Hargs in Htry. step_in Htry.
      destruct (Py.str_in _ valid_extensions); step_in Htry.
      * rewrite Hmissing in Htry. step_in Htry.
        inversion Htry; subst f r; reflexivity.
      * inversion Htry; subst f r; reflexivity.
    + assert (Hf : exists started,
                 f = mkFrame [Log INFO started false] (Some id)
                 /\ exists e, r = Raise e).
      { as_admin_in Hadm Htry.
        destruct (args ctx) as [[|a [|b l]]|];
          [ | | exfalso; apply (Hfew a b l); reflexivity | ];
          step_in Htry; inversion Htry; subst f r; eauto. }
      destruct Hf as (started & -> & e & ->).
      rewrite (user_messages_of_failed_relay w u ctx _ e Htry). reflexivity.
    + assert (Hf : exists started,
                 f = mkFrame [Log INFO started false] (Some id)
                 /\ exists e, r = Raise e).
      { as_admin_in Hadm Htry. rewrite Hargs in Htry. step_in Htry.
        rewrite Hint in Htry. step_in Htry.
        inversion Htry; subst f r; eauto. }
      destruct Hf as (started & -> & e & ->).
      rewrite (user_messages_of_failed_relay w u ctx _ e Htry). reflexivity.
  - destruct (handler_try admin_pull_file w u ctx start) as [f r] eqn:Htry.
    rewrite (user_messages_of_try admin_pull_file w u ctx f r ltac:(discriminate) Htry).
    as_admin_in Hadm Htry.
    split_run Htry; inversion Htry; subst; reflexivity.
  - intros f e Htry. exact (user_messages_of_failed_relay w u ctx f e Htry).
  - intros x y l n e Hargs Hint Hbot Hfail.
    destruct (handler_try admin_send_message w u ctx start) as [f r] eqn:Htry.
    assert (Hf : user_messages (trace f)
                 = ["❌ Не удалось отправить сообщение пользователю " ++ x ++ ": " ++ exc_str e]
                 /\ exists e', r = Raise e').
    { as_admin_in Hadm Htry. rewrite Hargs in Htry. step_in Htry.
      rewrite Hint in Htry. step_in Htry.
      rewrite Hbot in Htry. step_in Htry.
      rewrite Hfail in Htry. step_in Htry.
      split_run Htry; inversion Htry; subst f r; split; eauto. }
    destruct Hf as (Hmsgs & e' & ->).
    rewrite (user_messages_of_failed_relay w u ctx _ e' Htry), Hmsgs.
    reflexivity.
Qed.

Lemma validation_failures_and_the_caller_witness :
  user_messages
    (events_of (handler admin_update_neg_coll_for_all Sample.calm
                  Sample.from_admin (Sample.with_args ["7"]))) = []
  /\ user_messages
       (events_of (handler admin_send_message Sample.offline Sample.from_admin
                     (Sample.with_args ["555"; "hello"])))
     = ["❌ Не удалось отправить сообщение пользователю " ++ "555" ++ ": " ++ "Timed out";
        "technical failure"].
Proof.
  assert (Hadm : forall w, get_tg_user_data_attribute_from_update_object w
                             Sample.from_admin "id" = Ok "1" ->
                           getenv w "ADMIN_ID" "" = "1" ->
                           caller_is_admin w Sample.from_admin "1").
  { intros w H1 H2. split; [exact H1|]. split; [symmetry; exact H2|].
    intros H. discriminate H. }
  assert (Hne : "7" <> "") by (intros H; discriminate H).
  split.
  - apply (proj1 (validation_failures_and_the_caller Sample.calm
                    Sample.from_admin (Sample.with_args ["7"]) "1"
                    (Hadm Sample.calm eq_refl eq_refl))
             (gated_command update_negotiations)).
    apply (not_ready Sample.calm (Sample.with_args ["7"]) update_negotiations
             "7" eq_refl Hne eq_refl eq_refl).
  - apply (proj2 (proj2 (proj2 (validation_failures_and_the_caller
                                  Sample.offline Sample.from_admin
                                  (Sample.with_args ["555"; "hello"]) "1"
                                  (Hadm Sample.offline eq_refl eq_refl))))
             "555" "hello" [] 555%Z Sample.network_down
             eq_refl eq_refl eq_refl).
    intros t. reflexivity.
Defined.


(* ===================================================================== *)
(** ** Error texts of unmet readiness predicates *)
(* ===================================================================== *)

(** C8. The text of the validation error of an unmet readiness predicate,
    on the inputs [/admin_update_neg_coll_for_all 7] and
    [/admin_send_sourcing_criterias_to_user 7] sent by the admin for a
    user in records whose predicates are all false.  Both commands raise
    the text of the resume-analysis precondition, the very text of
    [/admin_get_fresh_resumes 7]; neither names its own precondition
    (vacancy selected, sourcing criteria received), as the sibling
    [/admin_analyze_sourcing_criterias 7] does for its own. *)
Theorem unmet_precondition_error_texts :
  is_vacancy_selected Sample.calm "7" = Ok false
  /\ is_vacancy_sourcing_criterias_recieved Sample.calm "7" = Ok false
  /\ outcome_of (admin_update_negotiations_command_try
                   Sample.calm Sample.from_admin (Sample.with_args ["7"]))
     = Raise (mkExc ValueError "User 7 does not have enough vacancy data for resume analysis.")
  /\ outcome_of (admin_send_sourcing_criterais_to_user_command_try
                   Sample.calm Sample.from_admin (Sample.with_args ["7"]))
     = Raise (mkExc ValueError "User 7 does not have enough vacancy data for resume analysis.")
  /\ outcome_of (admin_get_fresh_resumes_command_try
                   Sample.calm Sample.from_admin (Sample.with_args ["7"]))
     = Raise (mkExc ValueError "User 7 does not have enough vacancy data for resume analysis.")
  /\ outcome_of (admin_anazlyze_sourcing_criterais_command_try
                   Sample.calm Sample.from_admin (Sample.with_args ["7"]))
     = Raise (mkExc ValueError "User 7 does not have vacancy description received.")
  /\ admin_notifications
       (events_of (admin_update_negotiations_command
                     Sample.calm Sample.from_admin (Sample.with_args ["7"])))
     = ["⚠️ Error admin_update_negotiations_command: User 7 does not have enough vacancy data for resume analysis." ++ Py.nl ++ "Admin ID: 1"].
Proof. repeat split; reflexivity. Qed.

(* ===================================================================== *)
(** ** The notification helper never raises *)
(* ===================================================================== *)

(** C9. The notification helper never raises: it always returns, an
    exception of the transport is logged, and nothing is sent when
    [ADMIN_ID] is unset or empty or when the application or its bot is
    missing, so a report can be dropped silently. *)
Theorem send_message_to_admin_never_raises w app text pm f :
  snd (send_message_to_admin w app text pm f) = Ok tt
  /\ ((getenv w "ADMIN_ID" "" = "" \/ application_and_bot app = false) ->
      exists lvl msg,
        trace (fst (send_message_to_admin w app text pm f))
        = (trace f ++ [SendMessageToAdmin text; Log lvl msg false])%list)
  /\ (forall chat e,
        Py.int (getenv w "ADMIN_ID" "") = Some chat ->
        application_and_bot app = true ->
        bot_send_message_outcome
          w (trace f ++ [SendMessageToAdmin text])%list chat text pm = Some e ->
        trace (fst (send_message_to_admin w app text pm f))
        = (trace f ++
           [SendMessageToAdmin text; BotSendMessage chat text pm;
            Log ERROR ("send_message_to_admin: Failed to send admin notification: " ++ exc_str e) true])%list).
Proof.
  split; [|split].
  - destruct (send_message_to_admin_total w app text pm f) as (a & -> & _).
    reflexivity.
  - intros H. unfold send_message_to_admin, bot_send_message, int_.
    unfold_monad. cbn beta iota zeta delta [trace local_bot_user_id fst snd].
    unfold Py.truthy.
    destruct (getenv w "ADMIN_ID" "" =? "") eqn:Hadm; cbn [negb].
    + do 2 eexists. cbn. rewrite <- app_assoc. reflexivity.
    + destruct H as [H | H].
      * rewrite H in Hadm. discriminate.
      * rewrite H. do 2 eexists. cbn. rewrite <- app_assoc. reflexivity.
  - intros chat e Hint Happ Hsend.
    unfold send_message_to_admin, bot_send_message, int_.
    unfold_monad. cbn beta iota zeta delta [trace local_bot_user_id fst snd].
    unfold Py.truthy.
    destruct (getenv w "ADMIN_ID" "" =? "") eqn:Hadm; cbn [negb].
    + apply String.eqb_eq in Hadm. rewrite Hadm, int_of_empty in Hint.
      discriminate.
    + rewrite Happ, Hint. cbn beta iota zeta delta [trace local_bot_user_id fst snd].
      rewrite Hsend. cbn. rewrite <- !app_assoc. reflexivity.
Qed.

Lemma send_message_to_admin_never_raises_witness :
  (exists lvl msg,
     trace (fst (send_message_to_admin Sample.unconfigured (Some Sample.app)
                   "report" None start))
     = [SendMessageToAdmin "report"; Log lvl msg false])
  /\ trace (fst (send_message_to_admin Sample.offline (Some Sample.app)
                   "report" None start))
     = [SendMessageToAdmin "report"; BotSendMessage 1 "report" None;
        Log ERROR "send_message_to_admin: Failed to send admin notification: Timed out" true].
Proof.
  split.
  - apply (proj1 (proj2 (send_message_to_admin_never_raises
                           Sample.unconfigured (Some Sample.app) "report" None
                           start))).
    left. reflexivity.
  - apply (proj2 (proj2 (send_message_to_admin_never_raises
                           Sample.offline (Some Sample.app) "report" None
                           start)) 1%Z Sample.network_down);
      reflexivity.
Defined.

(* ===================================================================== *)
(** ** The confirmation of the recommend-resumes command *)
(* ===================================================================== *)

(** C10. When the admin's recommend-resumes request passes every check and
    the pipeline operation returns, the confirmation handed to the caller
    is the literal text with the placeholder [{target_user_id}] left as it
    is, whatever the target user. *)
Theorem recommend_resumes_confirmation_is_literal w u ctx id target :
  caller_is_admin w u id ->
  args ctx = Some [target] ->
  target <> "" ->
  is_user_in_records w target = Ok true ->
  is_vacany_data_enough_for_resume_analysis w target = Ok true ->
  (forall t, delegate_outcome w t
               (recommend_resumes_triggered_by_admin_command
                  target (application ctx)) = None) ->
  exists started rest,
    events_of (handler admin_recommend_resumes w u ctx)
    = ([Log INFO started false;
        CallDelegate (recommend_resumes_triggered_by_admin_command
                        target (application ctx));
        SendMessageToUser "Recommending resumes is triggered for user {target_user_id}."]
       ++ rest)%list
    /\ user_messages (events_of (handler admin_recommend_resumes w u ctx))
       = ["Recommending resumes is triggered for user {target_user_id}."]
    /\ outcome_of (handler admin_recommend_resumes w u ctx) = Ok tt
    /\ (send_message_to_user_outcome w
          [Log INFO started false;
           CallDelegate (recommend_resumes_triggered_by_admin_command
                           target (application ctx))]
          "Recommending resumes is triggered for user {target_user_id}." = None ->
        rest = []).
Proof.
  intros Hadm Hargs Hne Hrec Hready Hdel.
  apply truthy_nonempty in Hne.
  destruct (handler_try admin_recommend_resumes w u ctx start) as [f r] eqn:Htry.
  destruct (after_try admin_recommend_resumes w u ctx f r ltac:(discriminate) Htry)
    as (rest & Hrun & _ & Hu & _ & Hok & _).
  unfold events_of, outcome_of. rewrite Hrun. cbn [fst snd].
  as_admin_in Hadm Htry.
  rewrite Hargs, Hne, Hrec in Htry. step_in Htry.
  rewrite Hready in Htry. step_in Htry.
  rewrite Hdel in Htry. step_in Htry.
  match type of Htry with
  | context [Log INFO ?s false] => exists s
  end.
  exists rest. rewrite user_messages_app, Hu.
  destruct (send_message_to_user_outcome w _ _) as [e|] eqn:Hsend;
    inversion Htry; subst f r; cbn [trace user_messages flat_map app].
  - repeat split; auto. intros H. discriminate.
  - repeat split; auto.
Qed.

Lemma recommend_resumes_confirmation_is_literal_witness :
  user_messages
    (events_of (handler admin_recommend_resumes Sample.ready Sample.from_admin
                  (Sample.with_args ["7"])))
  = ["Recommending resumes is triggered for user {target_user_id}."].
Proof.
  destruct (recommend_resumes_confirmation_is_literal
              Sample.ready Sample.from_admin (Sample.with_args ["7"]) "1" "7")
    as (started & rest & _ & H & _).
  - repeat split. discriminate.
  - reflexivity.
  - discriminate.
  - reflexivity.
  - reflexivity.
  - reflexivity.
  - exact H.
Defined.

(* ===================================================================== *)
(** ** Beyond the gate: more structure *)
(* ===================================================================== *)

Lemma passes_gate w u a :
  get_tg_user_data_attribute_from_update_object w u "id" = Ok a ->
  not_admin (getenv w "ADMIN_ID" "") a = false ->
  caller_is_admin w u a.
Proof.
  intros Hid Hgate. unfold not_admin, Py.truthy in Hgate.
  apply orb_false_iff in Hgate. destruct Hgate as (H1 & H2).
  apply negb_false_iff in H1, H2.
  apply negb_true_iff, String.eqb_neq in H1. apply String.eqb_eq in H2.
  split; [exact Hid|]. split; [exact H2|]. rewrite H2. exact H1.
Qed.

Lemma truthy_true_inv s : Py.truthy s = true -> s <> "".
Proof.
  unfold Py.truthy. intros H. apply negb_true_iff, String.eqb_neq in H.
  exact H.
Qed.

(** As [split_run], leaving no equation behind for a variable. *)
Ltac split_all H :=
  repeat (cbn beta iota zeta delta [fst snd trace local_bot_user_id negb] in H;
    match type of H with
    | context [match ?x with _ => _ end] =>
        lazymatch x with
        | context [match _ with _ => _ end] => fail
        | _ => first [is_var x; destruct x | destruct x eqn:?]
        end
    end).

(** What the whole invocation adds to its [try] suite touches neither the
    pipeline nor the file system, for every handler. *)
Lemma after_any_try c w u ctx f r :
  handler_try c w u ctx start = (f, r) ->
  exists rest,
    events_of (handler c w u ctx) = (trace f ++ rest)%list
    /\ delegate_calls rest = []
    /\ file_accesses rest = []
    /\ (r = Ok tt -> rest = []).
Proof.
  intros Htry. destruct (is_message_relay c) as [-> | Hc].
  - destruct r as [[]|e].
    + exists []. unfold events_of.
      rewrite (run_after_return _ w u ctx f Htry), app_nil_r. auto.
    + destruct (relay_after_raise w u ctx f e Htry)
        as (rest & Hev & Hd & _ & Hf & _).
      eexists. split; [exact Hev|].
      split; [exact Hd|]. split; [exact Hf|]. intros H. discriminate H.
  - destruct (after_try c w u ctx f r Hc Htry)
      as (rest & Hrun & Hd & _ & Hf & Hok & _).
    exists rest. unfold events_of. rewrite Hrun. auto.
Qed.

Lemma delegates_of_try c w u ctx f r :
  handler_try c w u ctx start = (f, r) ->
  delegate_calls (events_of (handler c w u ctx)) = delegate_calls (trace f).
Proof.
  intros Htry. destruct (after_any_try c w u ctx f r Htry)
    as (rest & -> & Hd & _).
  rewrite delegate_calls_app, Hd. apply app_nil_r.
Qed.

Lemma file_accesses_of_try c w u ctx f r :
  handler_try c w u ctx start = (f, r) ->
  file_accesses (events_of (handler c w u ctx)) = file_accesses (trace f).
Proof.
  intros Htry. destruct (after_any_try c w u ctx f r Htry)
    as (rest & -> & _ & Hf & _).
  rewrite file_accesses_app, Hf. apply app_nil_r.
Qed.

(* ===================================================================== *)
(** ** What a handler can do to the pipeline and to its caller *)
(* ===================================================================== *)

(** X1. No exception leaves a handler other than the message relay,
    whatever the collaborators do; the only exception that can leave the
    message relay is the one raised by the send of the technical-support
    text in its [except] suite. *)
Theorem handlers_never_raise c w u ctx :
  (c <> admin_send_message -> outcome_of (handler c w u ctx) = Ok tt)
  /\ (forall e,
        outcome_of (handler c w u ctx) = Raise e ->
        c = admin_send_message
        /\ exists t,
             send_message_to_user_outcome w t (FAIL_TECHNICAL_SUPPORT_TEXT w)
             = Some e).
Proof.
  destruct (handler_try c w u ctx start) as [f r] eqn:Htry.
  destruct (is_message_relay c) as [-> | Hc].
  - split; [intros H; contradiction|].
    intros e. unfold outcome_of, run. rewrite handler_is_try_except.
    unfold try_except. rewrite Htry. destruct r as [[]|e0].
    + intros H. discriminate H.
    + unfold handler_except.
      pose proof (send_message_except_run w ctx e0 f) as Hex. cbn zeta in Hex.
      destruct (send_message_to_user_outcome w _ (FAIL_TECHNICAL_SUPPORT_TEXT w))
        as [e'|] eqn:Hsend.
      * rewrite Hex. cbn [snd]. intros H. inversion H; subst e'.
        split; [reflexivity|]. eexists. exact Hsend.
      * destruct Hex as (added & -> & _). intros H. discriminate H.
  - destruct (after_try c w u ctx f r Hc Htry) as (rest & Hrun & _).
    unfold outcome_of. rewrite Hrun. split; [reflexivity|].
    intros e H. discriminate H.
Qed.

Lemma handlers_never_raise_witness :
  outcome_of (handler admin_pull_file Sample.offline Sample.from_admin
                (Sample.with_args ["logs/bot.log"])) = Ok tt.
Proof.
  apply (proj1 (handlers_never_raise admin_pull_file Sample.offline
                  Sample.from_admin (Sample.with_args ["logs/bot.log"]))).
  intros H. discriminate H.
Defined.

(** X2. Whatever the world and the request, an invocation calls at most
    one pipeline operation; and when it calls one, the caller passed the
    admin gate, the request had exactly one non-empty argument, records
    know that user, the readiness the command requires held, and the
    operation is the command's own, called for that user (with the vacancy
    id of that user for the video-status update). *)
Theorem pipeline_only_for_admin_and_known_user c w u ctx :
  delegate_calls (events_of (handler c w u ctx)) = []
  \/ exists id target d,
       caller_is_admin w u id
       /\ args ctx = Some [target]
       /\ target <> ""
       /\ is_user_in_records w target = Ok true
       /\ pipeline_call c w ctx target d
       /\ delegate_calls (events_of (handler c w u ctx)) = [d].
Proof.
  destruct (handler_try c w u ctx start) as [f r] eqn:Htry.
  rewrite (delegates_of_try c w u ctx f r Htry).
  destruct c; unfold_handlers; unfold_monad; unfold start in Htry.
  all: split_all Htry.
  all: inversion Htry; subst f r; clear Htry.
  all: first
    [ left; reflexivity
    | right; do 3 eexists;
      split; [eapply passes_gate; eassumption|];
      split; [first [eassumption | reflexivity]|];
      split; [apply truthy_true_inv; assumption|];
      split; [assumption|];
      split; [cbn [pipeline_call]; eauto | reflexivity] ].
Qed.

(** X3. An admin invocation of a readiness-gated command sends the caller
    at most one message (two for analyze-resumes, which announces the start
    first); and when that last message, the confirmation, is sent, the
    command's pipeline operation has been called and has returned. *)
Theorem confirmation_only_after_delegate g w u ctx id :
  caller_is_admin w u id ->
  let t := events_of (handler (gated_command g) w u ctx) in
  let full := match g with analyze_resumes => 2 | _ => 1 end in
  (length (user_messages t) <= full)%nat
  /\ (length (user_messages t) = full ->
      exists d t0,
        delegate_calls t = [d] /\ delegate_outcome w t0 d = None).
Proof.
  intros Hadm t full. subst t full.
  destruct (handler_try (gated_command g) w u ctx start) as [f r] eqn:Htry.
  rewrite (user_messages_of_try _ w u ctx f r (gated_is_not_relay g) Htry).
  rewrite (delegates_of_try _ w u ctx f r Htry).
  destruct g; cbn [gated_command] in Htry; as_admin_in Hadm Htry.
  all: split_all Htry.
  all: inversion Htry; subst f r; clear Htry;
    cbn [trace user_messages delegate_calls flat_map app length].
  all: split; [lia|].
  all: try (intros H; discriminate H).
  all: intros _; do 2 eexists; split; [reflexivity | eassumption].
Qed.

Lemma confirmation_only_after_delegate_witness :
  exists d t0,
    delegate_calls
      (events_of (handler (gated_command fetch_fresh_resumes) Sample.ready
                    Sample.from_admin (Sample.with_args ["7"]))) = [d]
    /\ delegate_outcome Sample.ready t0 d = None.
Proof.
  assert (Hadm : caller_is_admin Sample.ready Sample.from_admin "1").
  { split; [reflexivity|]. split; [reflexivity|].
    intros H. discriminate H. }
  apply (proj2 (confirmation_only_after_delegate fetch_fresh_resumes
                  Sample.ready Sample.from_admin (Sample.with_args ["7"]) "1"
                  Hadm)).
  reflexivity.
Defined.

(** The [except] suites read only [ADMIN_ID], the technical-support text,
    the chat transport and [context.application]. *)
Lemma handler_except_front c w1 w2 u ctx1 ctx2 e f :
  same_front w1 w2 u ->
  application ctx1 = application ctx2 ->
  handler_except c w1 ctx1 e f = handler_except c w2 ctx2 e f.
Proof.
  intros [Hadm Hrefusal Hsupport Hid Hreply Hbot] Happ.
  destruct c; unfold handler_except;
    match goal with |- ?h _ _ _ _ = _ => unfold h end;
    unfold report_failure, send_message_to_user, send_message_to_admin,
      bot_send_message;
    rewrite ?Hsupport, ?Hreply, ?Hadm, ?Hbot, Happ; reflexivity.
Qed.

(** X4. A caller who is refused at the gate cannot steer a handler: what
    the invocation does and how it ends depends neither on the arguments
    of the request nor on records, readiness, pipeline or files; two
    worlds that agree on [ADMIN_ID], the fixed texts, the caller's
    identity and the chat transport give the same run.  The caller is sent
    the unauthorized text and, by the message relay when that send fails,
    the technical-support text; nothing else. *)
Theorem refused_caller_cannot_steer c w1 w2 u ctx1 ctx2 id :
  same_front w1 w2 u ->
  application ctx1 = application ctx2 ->
  get_tg_user_data_attribute_from_update_object w1 u "id" = Ok id ->
  (id <> getenv w1 "ADMIN_ID" "" \/ getenv w1 "ADMIN_ID" "" = "") ->
  run (handler c w1 u ctx1) = run (handler c w2 u ctx2)
  /\ (user_messages (events_of (handler c w1 u ctx1))
      = [FAIL_TO_IDENTIFY_USER_AS_ADMIN_TEXT w1]
      \/ (c = admin_send_message
          /\ user_messages (events_of (handler c w1 u ctx1))
             = [FAIL_TO_IDENTIFY_USER_AS_ADMIN_TEXT w1;
                FAIL_TECHNICAL_SUPPORT_TEXT w1])).
Proof.
  intros Hfront Happ Hid1 Hne1.
  pose proof Hfront as [Hadm Hrefusal Hsupport Hid Hreply Hbot].
  assert (Hid2 : get_tg_user_data_attribute_from_update_object w2 u "id" = Ok id)
    by (rewrite <- Hid; exact Hid1).
  assert (Hne2 : id <> getenv w2 "ADMIN_ID" "" \/ getenv w2 "ADMIN_ID" "" = "")
    by (rewrite <- Hadm; exact Hne1).
  apply not_admin_true in Hne1, Hne2.
  split.
  - assert (Htry : handler_try c w1 u ctx1 start = handler_try c w2 u ctx2 start).
    { destruct c; unfold_handlers; unfold_monad; rewrite Hid1, Hid2;
        cbn beta iota zeta delta [fst snd trace local_bot_user_id];
        rewrite Hne1, Hne2, Hrefusal, Hreply; reflexivity. }
    unfold run. rewrite !handler_is_try_except. unfold try_except.
    rewrite Htry. destruct (handler_try c w2 u ctx2 start) as [f [[]|e]];
      [reflexivity|].
    rewrite (handler_except_front c w1 w2 u ctx1 ctx2 e f Hfront Happ).
    reflexivity.
  - destruct (gate_refuses c w1 u ctx1 id Hid1 Hne1) as (started & Htry).
    destruct (send_message_to_user_outcome w1 [Log INFO started false]
                (FAIL_TO_IDENTIFY_USER_AS_ADMIN_TEXT w1)) as [e|].
    + destruct (is_message_relay c) as [-> | Hc].
      * right. split; [reflexivity|].
        rewrite (user_messages_of_failed_relay w1 u ctx1 _ e Htry).
        reflexivity.
      * left. rewrite (user_messages_of_try c w1 u ctx1 _ _ Hc Htry).
        reflexivity.
    + left. unfold events_of.
      rewrite (run_after_return c w1 u ctx1 _ Htry). reflexivity.
Qed.

Lemma refused_caller_cannot_steer_witness :
  run (handler admin_recommend_resumes Sample.ready Sample.from_other
         (Sample.with_args ["7"]))
  = run (handler admin_recommend_resumes Sample.stray Sample.from_other
           (Sample.with_args [])).
Proof.
  assert (Hfront : same_front Sample.ready Sample.stray Sample.from_other)
    by (split; reflexivity).
  assert (Hne : "2" <> getenv Sample.ready "ADMIN_ID" ""
                \/ getenv Sample.ready "ADMIN_ID" "" = "").
  { left. vm_compute. intros H. discriminate H. }
  apply (proj1 (refused_caller_cannot_steer admin_recommend_resumes
                  Sample.ready Sample.stray Sample.from_other
                  (Sample.with_args ["7"]) (Sample.with_args []) "2"
                  Hfront eq_refl eq_refl Hne)).
Defined.

(** X5. The user-status command is silent towards its caller: an admin
    invocation never sends the caller a message, also when it succeeds;
    and for one non-empty argument it calls the readiness notification,
    for that user and with [context.application], exactly when records
    know the user. *)
Theorem user_status_is_silent w u ctx id :
  caller_is_admin w u id ->
  user_messages (events_of (handler admin_get_user_status w u ctx)) = []
  /\ (forall target b,
        args ctx = Some [target] ->
        target <> "" ->
        is_user_in_records w target = Ok b ->
        delegate_calls (events_of (handler admin_get_user_status w u ctx))
        = if b then [inform_admin_about_user_readiness
                       target (application ctx)]
          else []).
Proof.
  intros Hadm.
  destruct (handler_try admin_get_user_status w u ctx start) as [f r] eqn:Htry.
  rewrite (user_messages_of_try admin_get_user_status w u ctx f r
             ltac:(discriminate) Htry).
  rewrite (delegates_of_try admin_get_user_status w u ctx f r Htry).
  as_admin_in Hadm Htry. split.
  - split_all Htry; inversion Htry; subst f r; reflexivity.
  - intros target b Hargs Hne Hrec. apply truthy_nonempty in Hne.
    rewrite Hargs, Hne, Hrec in Htry. step_in Htry.
    destruct b; split_all Htry; inversion Htry; subst f r; reflexivity.
Qed.

Lemma user_status_is_silent_witness :
  user_messages
    (events_of (handler admin_get_user_status Sample.calm Sample.from_admin
                  (Sample.with_args ["7"]))) = []
  /\ delegate_calls
       (events_of (handler admin_get_user_status Sample.calm Sample.from_admin
                     (Sample.with_args ["7"])))
     = [inform_admin_about_user_readiness "7" (Some Sample.app)].
Proof.
  assert (Hadm : caller_is_admin Sample.calm Sample.from_admin "1").
  { split; [reflexivity|]. split; [reflexivity|].
    intros H. discriminate H. }
  assert (Hne : "7" <> "") by (intros H; discriminate H).
  destruct (user_status_is_silent Sample.calm Sample.from_admin
              (Sample.with_args ["7"]) "1" Hadm) as (Hquiet & Hcall).
  split; [exact Hquiet|].
  exact (Hcall "7" true eq_refl Hne eq_refl).
Defined.

(** X6. The list-users command, for the admin: when records return the
    list the caller is sent exactly one message, the list; when reading
    records raises, the caller is sent nothing and the [try] suite ends
    with that exception after its first log line.  Its arguments are not
    read: two requests with the same [context.application] give the same
    run, for any caller. *)
Theorem get_users_lists_for_admin w u ctx id :
  caller_is_admin w u id ->
  (forall ids,
     get_list_of_users_from_records w = Ok ids ->
     user_messages (events_of (handler admin_get_users w u ctx))
     = ["📋 List of users: " ++ ids])
  /\ (forall e,
        get_list_of_users_from_records w = Raise e ->
        user_messages (events_of (handler admin_get_users w u ctx)) = []
        /\ run (handler_try admin_get_users w u ctx)
           = ([Log INFO ("admin_get_users_command: started. User_id: " ++ id) false],
              Raise e))
  /\ (forall ctx',
        application ctx' = application ctx ->
        run (handler admin_get_users w u ctx')
        = run (handler admin_get_users w u ctx)).
Proof.
  intros Hadm.
  destruct (handler_try admin_get_users w u ctx start) as [f r] eqn:Htry.
  rewrite (user_messages_of_try admin_get_users w u ctx f r
             ltac:(discriminate) Htry).
  unfold run at 1. rewrite Htry.
  as_admin_in Hadm Htry. split; [|split].
  - intros ids Hids. rewrite Hids in Htry.
    split_all Htry; inversion Htry; subst f r; reflexivity.
  - intros e He. rewrite He in Htry. step_in Htry.
    inversion Htry; subst f r. split; reflexivity.
  - intros ctx' Happ. unfold run, handler, admin_get_users_command,
      admin_get_users_command_except, report_failure, try_except.
    rewrite Happ. reflexivity.
Qed.

Lemma get_users_lists_for_admin_witness :
  user_messages
    (events_of (handler admin_get_users Sample.calm Sample.from_admin
                  (Sample.with_args ["ignored"; "words"])))
  = ["📋 List of users: " ++ "['7']"].
Proof.
  assert (Hadm : caller_is_admin Sample.calm Sample.from_admin "1").
  { split; [reflexivity|]. split; [reflexivity|].
    intros H. discriminate H. }
  apply (proj1 (get_users_lists_for_admin Sample.calm Sample.from_admin
                  (Sample.with_args ["ignored"; "words"]) "1" Hadm)).
  reflexivity.
Defined.



(* ===================================================================== *)
(** ** What is handed to the bot *)
(* ===================================================================== *)

Lemma bot_sends_app t1 t2 :
  bot_sends (t1 ++ t2)%list = (bot_sends t1 ++ bot_sends t2)%list.
Proof. apply flat_map_app. Qed.

(** What the notification helper hands to the bot. *)
Lemma send_message_to_admin_sends w app text pm f :
  exists added,
    send_message_to_admin w app text pm f
    = (mkFrame (trace f ++ added)%list (local_bot_user_id f), Ok tt)
    /\ admin_report_shape text added
    /\ bot_sends added
       = if Py.truthy (getenv w "ADMIN_ID" "") && application_and_bot app
         then match Py.int (getenv w "ADMIN_ID" "") with
              | Some chat => [(chat, text, pm)]
              | None => []
              end
         else [].
Proof.
  unfold send_message_to_admin, bot_send_message, int_, admin_report_shape.
  unfold_monad. cbn.
  destruct (Py.truthy (getenv w "ADMIN_ID" "")); cbn.
  2:{ eexists. rewrite <- app_assoc. split; [reflexivity|].
      split; [left; do 3 eexists; reflexivity | reflexivity]. }
  destruct (application_and_bot app); cbn.
  2:{ eexists. rewrite <- app_assoc. split; [reflexivity|].
      split; [left; do 3 eexists; reflexivity | reflexivity]. }
  destruct (Py.int (getenv w "ADMIN_ID" "")); cbn.
  2:{ eexists. rewrite <- app_assoc. split; [reflexivity|].
      split; [left; do 3 eexists; reflexivity | reflexivity]. }
  destruct (bot_send_message_outcome w _ z text pm); cbn.
  all: eexists; rewrite <- !app_assoc; (split; [reflexivity|]);
    (split; [right; do 5 eexists; reflexivity | reflexivity]).
Qed.



Lemma report_sends w app text f :
  exists added,
    send_message_to_admin w app text None f
    = (mkFrame (trace f ++ added)%list (local_bot_user_id f), Ok tt)
    /\ (bot_sends added = []
        \/ application_and_bot app = true
           /\ exists chat,
                Py.int (getenv w "ADMIN_ID" "") = Some chat
                /\ bot_sends added = [(chat, text, None)]).
Proof.
  destruct (send_message_to_admin_sends w app text None f)
    as (added & Hrun & _ & Hs).
  exists added. split; [exact Hrun|]. rewrite Hs.
  destruct (Py.truthy _); [|left; reflexivity].
  destruct (application_and_bot app); [|left; reflexivity].
  destruct (Py.int (getenv w "ADMIN_ID" "")) as [chat|]; [|left; reflexivity].
  right. split; [reflexivity|]. exists chat. split; reflexivity.
Qed.

(** What an [except] suite hands to the bot: at most the report, and only
    when the application and its bot are there. *)
Lemma except_sends c w ctx e f :
  exists added r,
    handler_except c w ctx e f
    = (mkFrame (trace f ++ added)%list (local_bot_user_id f), r)
    /\ (bot_sends added = []
        \/ application_and_bot (application ctx) = true
           /\ exists chat rp,
                Py.int (getenv w "ADMIN_ID" "") = Some chat
                /\ bot_sends added
                   = [(chat,
                       rp ++ exc_str e ++ Py.nl ++ "Admin ID: " ++ who f,
                       None)]).
Proof.
  assert (Hreport : forall lp rp f0,
             exists added,
               report_failure w ctx lp rp e f0
               = (mkFrame (trace f0 ++ added)%list (local_bot_user_id f0), Ok tt)
               /\ (bot_sends added = []
                   \/ application_and_bot (application ctx) = true
                      /\ exists chat,
                           Py.int (getenv w "ADMIN_ID" "") = Some chat
                           /\ bot_sends added
                              = [(chat,
                                  rp ++ exc_str e ++ Py.nl ++ "Admin ID: "
                                  ++ who f0,
                                  None)])).
  { intros lp rp f0. unfold report_failure. unfold_monad.
    cbn beta iota zeta delta [trace local_bot_user_id fst snd].
    destruct (application ctx) as [a|].
    - match goal with
      | |- context [send_message_to_admin w ?a ?t ?p ?fr] =>
          destruct (report_sends w a t fr) as (added & Hrun & Hs)
      end.
      eexists. rewrite Hrun.
      cbn beta iota zeta delta [trace local_bot_user_id fst snd].
      rewrite <- app_assoc. split; [reflexivity|].
      rewrite bot_sends_app. cbn [bot_sends flat_map app].
      exact Hs.
    - eexists. split; [reflexivity|]. left. reflexivity. }
  destruct (is_message_relay c) as [-> | Hc].
  - unfold handler_except, admin_send_message_command_except,
      send_message_to_user. unfold_monad.
    cbn beta iota zeta delta [trace local_bot_user_id fst snd].
    destruct (send_message_to_user_outcome w _ _).
    + do 2 eexists. rewrite <- app_assoc. split; [reflexivity|].
      left. reflexivity.
    + destruct (application ctx) as [a|].
      * match goal with
        | |- context [send_message_to_admin w ?a ?t ?p ?fr] =>
            destruct (report_sends w a t fr) as (added & Hrun & Hs)
        end.
        do 2 eexists. rewrite Hrun.
        cbn beta iota zeta delta [trace local_bot_user_id fst snd].
        rewrite <- !app_assoc. split; [reflexivity|].
        rewrite bot_sends_app. cbn [bot_sends flat_map app].
        destruct Hs as [Hs | (Hb & chat & Hc & Hs)]; [left; exact Hs|].
        right. split; [exact Hb|]. exists chat. eexists.
        split; [exact Hc | exact Hs].
      * do 2 eexists. rewrite <- app_assoc. split; [reflexivity|].
        left. reflexivity.
  - destruct (handler_except_is_report c w ctx e Hc) as (lp & rp & ->).
    destruct (Hreport lp rp f) as (added & Hrun & Hs).
    exists added, (Ok tt). split; [exact Hrun|].
    destruct Hs as [Hs | (Hb & chat & Hc' & Hs)]; [left; exact Hs|].
    right. split; [exact Hb|]. exists chat, rp. split; assumption.
Qed.

(** What a [try] suite hands to the bot: nothing, but for the message
    relay its one message to the target. *)
Lemma try_sends c w u ctx f r :
  handler_try c w u ctx start = (f, r) ->
  bot_sends (trace f) = []
  \/ (c = admin_send_message
      /\ exists id x y l n,
           caller_is_admin w u id
           /\ args ctx = Some (x :: y :: l)
           /\ Py.int x = Some n
           /\ bot_sends (trace f) = [(n, Py.join " " (y :: l), None)]).
Proof.
  intros Htry. destruct c; unfold_handlers; unfold_monad; unfold start in Htry.
  all: split_all Htry.
  all: inversion Htry; subst f r; clear Htry.
  all: first
    [ left; reflexivity
    | right; split; [reflexivity|]; do 5 eexists;
      split; [eapply passes_gate; eassumption|];
      split; [first [eassumption | reflexivity]|];
      split; [eassumption | reflexivity] ].
Qed.

(** X7. Every message a handler hands to [bot.send_message] is either a
    failure report, sent to the chat [int(ADMIN_ID)], or, in the message
    relay only, the relayed text: the arguments after the first joined by
    single spaces, sent to the chat [int] of the first argument, on the
    request of a caller who passed the admin gate.  No other chat is ever
    written to. *)
Theorem bot_messages_go_to_target_or_admin c w u ctx m :
  In m (bot_sends (events_of (handler c w u ctx))) ->
  is_admin_report w m
  \/ (c = admin_send_message
      /\ exists id x y l n,
           caller_is_admin w u id
           /\ args ctx = Some (x :: y :: l)
           /\ Py.int x = Some n
           /\ m = (n, Py.join " " (y :: l), None)).
Proof.
  destruct (handler_try c w u ctx start) as [f r] eqn:Htry.
  unfold events_of, run. rewrite handler_is_try_except. unfold try_except.
  rewrite Htry.
  assert (Hin : forall added,
             In m (bot_sends (trace f ++ added)%list) ->
             (forall m', In m' (bot_sends added) -> is_admin_report w m') ->
             is_admin_report w m
             \/ (c = admin_send_message
                 /\ exists id x y l n,
                      caller_is_admin w u id
                      /\ args ctx = Some (x :: y :: l)
                      /\ Py.int x = Some n
                      /\ m = (n, Py.join " " (y :: l), None))).
  { intros added Hm Hadded. rewrite bot_sends_app in Hm.
    apply in_app_or in Hm. destruct Hm as [Hm | Hm]; [|left; auto].
    destruct (try_sends c w u ctx f r Htry)
      as [Hnone | (Hc & id & x & y & l & n & H1 & H2 & H3 & H4)].
    - rewrite Hnone in Hm. destruct Hm.
    - rewrite H4 in Hm. destruct Hm as [<- | []].
      right. split; [exact Hc|]. exists id, x, y, l, n. auto. }
  destruct r as [[]|e].
  - cbn [fst trace]. intros Hm. apply (Hin []).
    + rewrite app_nil_r. exact Hm.
    + intros m' [].
  - destruct (except_sends c w ctx e f) as (added & r' & -> & Hs).
    cbn [fst trace]. intros Hm. apply (Hin added Hm).
    destruct Hs as [-> | (_ & chat & rp & Hchat & ->)]; [intros m' []|].
    intros m' [<- | []]. cbn. split; [exact Hchat|]. split; [reflexivity|].
    do 3 eexists. reflexivity.
Qed.

Lemma bot_messages_go_to_target_or_admin_witness :
  is_admin_report Sample.calm (555%Z, "hello there", @None ParseMode)
  \/ (admin_send_message = admin_send_message
      /\ exists id x y l n,
           caller_is_admin Sample.calm Sample.from_admin id
           /\ args (Sample.with_args ["555"; "hello"; "there"])
              = Some (x :: y :: l)
           /\ Py.int x = Some n
           /\ (555%Z, "hello there", @None ParseMode)
              = (n, Py.join " " (y :: l), None)).
Proof.
  apply (bot_messages_go_to_target_or_admin admin_send_message Sample.calm
           Sample.from_admin (Sample.with_args ["555"; "hello"; "there"])
           (555%Z, "hello there", None)).
  left. reflexivity.
Defined.

(** X15. With the application or its bot missing, an admin request that
    passed validation fails after validation and nothing is handed to the
    bot, not even the failure report: the message relay raises
    [ValueError] after its first log line and the caller is sent the
    technical-support text only; the file pull raises [RuntimeError] after
    the existence check, without opening the file. *)
Theorem without_bot_nothing_is_sent w u ctx id :
  caller_is_admin w u id ->
  application_and_bot (application ctx) = false ->
  (forall x y l n,
     args ctx = Some (x :: y :: l) ->
     Py.int x = Some n ->
     outcome_of (handler_try admin_send_message w u ctx)
     = Raise (mkExc ValueError "Application or bot instance not available")
     /\ bot_sends (events_of (handler admin_send_message w u ctx)) = []
     /\ user_messages (events_of (handler admin_send_message w u ctx))
        = [FAIL_TECHNICAL_SUPPORT_TEXT w])
  /\ (forall rel,
        args ctx = Some [rel] ->
        Py.str_in (Pathlib.suffix (file_path_of w rel)) valid_extensions
        = true ->
        path_exists w (Pathlib.str (file_path_of w rel)) = true ->
        outcome_of (handler_try admin_pull_file w u ctx)
        = Raise (mkExc RuntimeError "Application or bot instance not available")
        /\ bot_sends (events_of (handler admin_pull_file w u ctx)) = []
        /\ file_accesses (events_of (handler admin_pull_file w u ctx))
           = [PathExists (Pathlib.str (file_path_of w rel))]).
Proof.
  intros Hadm Hbot.
  assert (Hsends : forall c f e,
             handler_try c w u ctx start = (f, Raise e) ->
             bot_sends (events_of (handler c w u ctx)) = bot_sends (trace f)).
  { intros c f e Htry. unfold events_of, run.
    rewrite handler_is_try_except. unfold try_except. rewrite Htry.
    destruct (except_sends c w ctx e f) as (added & r' & -> & Hs).
    cbn [fst trace]. rewrite bot_sends_app.
    destruct Hs as [-> | (Hb & _)]; [apply app_nil_r|].
    rewrite Hb in Hbot. discriminate Hbot. }
  split.
  - intros x y l n Hargs Hint.
    destruct (handler_try admin_send_message w u ctx start) as [f r] eqn:Htry.
    unfold outcome_of, run. rewrite Htry. cbn [snd].
    assert (Hf : f = mkFrame (trace f) (Some id)
                 /\ bot_sends (trace f) = []
                 /\ user_messages (trace f) = []
                 /\ r = Raise (mkExc ValueError
                                 "Application or bot instance not available")).
    { as_admin_in Hadm Htry. rewrite Hargs in Htry. step_in Htry.
      rewrite Hint in Htry. step_in Htry. rewrite Hbot in Htry.
      step_in Htry. inversion Htry; subst f r. repeat split. }
    destruct Hf as (_ & Hb & Hu & ->).
    split; [reflexivity|].
    rewrite (Hsends _ f _ Htry), Hb.
    rewrite (user_messages_of_failed_relay w u ctx f _ Htry), Hu.
    split; reflexivity.
  - intros rel Hargs Hext Hfound. unfold file_path_of in *.
    destruct (handler_try admin_pull_file w u ctx start) as [f r] eqn:Htry.
    unfold outcome_of, run. rewrite Htry. cbn [snd].
    rewrite (file_accesses_of_try admin_pull_file w u ctx f r Htry).
    assert (Hf : bot_sends (trace f) = []
                 /\ file_accesses (trace f)
                    = [PathExists
                         (Pathlib.str
                            (Pathlib.truediv
                               (Pathlib.parse
                                  (getenv w "USERS_DATA_DIR" "/users_data"))
                               rel))]
                 /\ r = Raise (mkExc RuntimeError
                                 "Application or bot instance not available")).
    { as_admin_in Hadm Htry. rewrite Hargs in Htry. step_in Htry.
      rewrite Hext in Htry. step_in Htry.
      rewrite Hfound in Htry. step_in Htry.
      rewrite Hbot in Htry. step_in Htry.
      inversion Htry; subst f r. repeat split. }
    destruct Hf as (Hb & Hfa & ->).
    split; [reflexivity|].
    rewrite (Hsends _ f _ Htry), Hb, Hfa. split; reflexivity.
Qed.

Lemma without_bot_nothing_is_sent_witness :
  bot_sends
    (events_of (handler admin_send_message Sample.calm Sample.from_admin
                  (mkContext (Some ["555"; "hello"])
                     (Some (mkApplication None))))) = []
  /\ user_messages
       (events_of (handler admin_send_message Sample.calm Sample.from_admin
                     (mkContext (Some ["555"; "hello"])
                        (Some (mkApplication None)))))
     = ["technical failure"].
Proof.
  assert (Hadm : caller_is_admin Sample.calm Sample.from_admin "1").
  { split; [reflexivity|]. split; [reflexivity|].
    intros H. discriminate H. }
  destruct (proj1 (without_bot_nothing_is_sent Sample.calm Sample.from_admin
                     (mkContext (Some ["555"; "hello"])
                        (Some (mkApplication None))) "1" Hadm eq_refl)
              "555" "hello" [] 555%Z eq_refl eq_refl) as (_ & Hb & Hu).
  split; [exact Hb | exact Hu].
Defined.

(* ===================================================================== *)
(** ** The file pull on the file system *)
(* ===================================================================== *)

Ltac unfold_negb_facts :=
  repeat match goal with
  | H : negb _ = false |- _ => apply negb_false_iff in H
  | H : negb _ = true |- _ => apply negb_true_iff in H
  end.

(** X8. The file pull follows one protocol on the file system, whatever
    the world: it touches nothing unless the caller passed the admin gate
    with exactly one argument whose resolved path has an allowed
    extension; then it checks that one path, opens it only if it exists
    and the bot is there, sends it only to the chat of the request under
    the name of its last component, and closes it after the send whether
    the send returned or raised.  It never opens a second file and never
    sends without closing. *)
Theorem pull_file_protocol w u ctx :
  file_accesses (events_of (handler admin_pull_file w u ctx)) = []
  \/ exists id rel,
       caller_is_admin w u id
       /\ args ctx = Some [rel]
       /\ Py.str_in (Pathlib.suffix (file_path_of w rel)) valid_extensions
          = true
       /\ PullStage w u ctx
            (Pathlib.str (file_path_of w rel))
            (Pathlib.name (file_path_of w rel))
            (file_accesses (events_of (handler admin_pull_file w u ctx))).
Proof.
  destruct (handler_try admin_pull_file w u ctx start) as [f r] eqn:Htry.
  rewrite (file_accesses_of_try admin_pull_file w u ctx f r Htry).
  unfold file_path_of.
  unfold_handlers; unfold_monad; unfold start in Htry.
  split_all Htry.
  all: inversion Htry; subst f r; clear Htry; unfold_negb_facts.
  all: first
    [ left; reflexivity
    | right; do 2 eexists;
      split; [eapply passes_gate; eassumption|];
      split; [first [eassumption | reflexivity]|];
      split; [eassumption|];
      cbn [trace file_accesses filter is_file_access app];
      first [ apply stage_checked
            | apply stage_opened; assumption
            | eapply stage_sent; first [assumption | reflexivity] ] ].
Qed.



Lemma truediv_absolute p key :
  Py.starts_with_slash key = true ->
  Pathlib.truediv p key = Pathlib.parse key.
Proof.
  intros H. unfold Pathlib.truediv, Pathlib.posix_join. rewrite H.
  reflexivity.
Qed.

(** X13. For an argument that starts with a slash the file pull does not
    depend on [USERS_DATA_DIR]: whatever the variable is set to, or unset,
    the handler checks, opens and sends the same path, the argument
    itself, and makes the same run. *)
Theorem pull_file_absolute_argument_ignores_data_root w d1 d2 u ctx rel :
  args ctx = Some [rel] ->
  Py.starts_with_slash rel = true ->
  file_path_of (with_data_dir w d1) rel = Pathlib.parse rel
  /\ run (handler admin_pull_file (with_data_dir w d1) u ctx)
     = run (handler admin_pull_file (with_data_dir w d2) u ctx).
Proof.
  intros Hargs Habs. split.
  - unfold file_path_of. apply truediv_absolute. exact Habs.
  - unfold run, handler, admin_pull_file_command,
      admin_pull_file_command_try, admin_pull_file_command_except,
      report_failure, send_message_to_admin, try_except.
    rewrite Hargs.
    cbn beta iota zeta.
    rewrite !(truediv_absolute _ rel Habs).
    reflexivity.
Qed.

Lemma pull_file_absolute_argument_ignores_data_root_witness :
  run (handler admin_pull_file (with_data_dir Sample.stray (Some "/srv/data"))
         Sample.from_admin (Sample.with_args ["/etc/app.log"]))
  = run (handler admin_pull_file (with_data_dir Sample.stray None)
           Sample.from_admin (Sample.with_args ["/etc/app.log"])).
Proof.
  apply (proj2 (pull_file_absolute_argument_ignores_data_root Sample.stray
                  (Some "/srv/data") None Sample.from_admin
                  (Sample.with_args ["/etc/app.log"]) "/etc/app.log"
                  eq_refl eq_refl)).
Defined.

Lemma substring_whole s : substring 0 (String.length s) s = s.
Proof. induction s as [|a s IH]; cbn; [reflexivity | rewrite IH; reflexivity]. Qed.

(** The last dot of a name splits it into what is before it and a dotted
    rest without any dot; the rest is what [substring] returns there. *)
Lemma rfind_dot_split n i :
  Py.rfind_dot n = Some i ->
  exists stem rest,
    n = stem ++ String "." rest
    /\ String.length stem = i
    /\ Py.rfind_dot rest = None
    /\ substring i (String.length n - i) n = String "." rest.
Proof.
  revert i. induction n as [|a n IH]; intros i H; [discriminate H|].
  cbn [Py.rfind_dot] in H.
  destruct (Py.rfind_dot n) as [j|] eqn:Hn.
  - inversion H; subst i. destruct (IH j eq_refl) as (stem & rest & -> & Hl & Hr & Hs).
    exists (String a stem), rest. cbn. rewrite Hl.
    repeat split; auto.
  - destruct (Ascii.eqb a ".") eqn:Ha; [|discriminate H].
    inversion H; subst i. apply Ascii.eqb_eq in Ha. subst a.
    exists "", n. cbn [append String.length]. rewrite Nat.sub_0_r.
    repeat split; auto.
    change (String "." n) with (String "."%char n) at 1.
    exact (substring_whole (String "." n)).
Qed.

Lemma rfind_dot_append stem rest :
  Py.rfind_dot rest = None ->
  Py.rfind_dot (stem ++ String "." rest) = Some (String.length stem).
Proof.
  intros Hr. induction stem as [|a stem IH]; cbn.
  - rewrite Hr. reflexivity.
  - rewrite IH. reflexivity.
Qed.

Lemma substring_after stem s :
  substring (String.length stem)
    (String.length (stem ++ s) - String.length stem) (stem ++ s) = s.
Proof.
  induction stem as [|a stem IH]; cbn.
  - rewrite Nat.sub_0_r. apply substring_whole.
  - exact IH.
Qed.

Lemma length_append s1 s2 :
  String.length (s1 ++ s2) = String.length s1 + String.length s2.
Proof. induction s1; cbn; congruence. Qed.

(** X16. The extension check of the file pull passes exactly for paths
    whose last component is a non-empty stem followed by [.log], [.json]
    or [.mp4]: a name that is only an extension, such as [.log], is
    refused, and only the last extension counts. *)
Theorem pull_file_accepted_names p :
  Py.str_in (Pathlib.suffix p) valid_extensions = true
  <-> exists stem ext,
        stem <> "" /\ In ext valid_extensions
        /\ Pathlib.name p = stem ++ ext.
Proof.
  rewrite valid_extension_cases. unfold Pathlib.suffix. cbv zeta.
  generalize (Pathlib.name p). intros n. split.
  - intros Hs.
    destruct (Py.rfind_dot n) as [i|] eqn:Hi.
    2:{ destruct Hs as [H | [H | H]]; discriminate H. }
    destruct ((0 <? i)%nat && (i <? String.length n - 1)%nat) eqn:Hb.
    2:{ destruct Hs as [H | [H | H]]; discriminate H. }
    apply andb_true_iff in Hb. destruct Hb as (Hpos & _).
    apply Nat.ltb_lt in Hpos.
    destruct (rfind_dot_split n i Hi) as (stem & rest & Hn & Hl & _ & Hsub).
    exists stem, (substring i (String.length n - i) n).
    split; [|split].
    + intros ->. cbn in Hl. lia.
    + unfold valid_extensions. cbn [In].
      destruct Hs as [-> | [-> | ->]]; auto.
    + rewrite Hsub. exact Hn.
  - intros (stem & ext & Hne & Hin & ->).
    assert (Hext : exists rest,
               ext = String "." rest /\ Py.rfind_dot rest = None
               /\ rest <> "").
    { unfold valid_extensions in Hin. cbn [In] in Hin.
      destruct Hin as [<- | [<- | [<- | []]]]; eexists;
        (split; [reflexivity|]); (split; [reflexivity|]);
        intros H; discriminate H. }
    destruct Hext as (rest & -> & Hr & Hrest).
    rewrite (rfind_dot_append stem rest Hr).
    assert (Hpos : (0 <? String.length stem)%nat = true).
    { apply Nat.ltb_lt. destruct stem; [contradiction Hne; reflexivity|].
      cbn. lia. }
    assert (Hlast : (String.length stem
                     <? String.length (stem ++ String "." rest) - 1)%nat
                    = true).
    { apply Nat.ltb_lt. rewrite length_append. cbn [String.length].
      destruct rest; [contradiction Hrest; reflexivity|]. cbn. lia. }
    rewrite Hpos, Hlast. cbn [andb]. rewrite substring_after.
    unfold valid_extensions in Hin. cbn [In] in Hin.
    destruct Hin as [H | [H | [H | []]]]; rewrite <- H; auto.
Qed.

(* ===================================================================== *)
(** ** The message relay *)
(* ===================================================================== *)

(** The message relay, once validation has passed: the message is handed
    to the bot first. *)
Lemma relay_try_after_validation w u ctx id x y l n f r :
  caller_is_admin w u id ->
  args ctx = Some (x :: y :: l) ->
  Py.int x = Some n ->
  application_and_bot (application ctx) = true ->
  handler_try admin_send_message w u ctx start = (f, r) ->
  exists started rest,
    trace f
    = Log INFO started false
      :: BotSendMessage n (Py.join " " (y :: l)) None :: rest.
Proof.
  intros Hadm Hargs Hint Hbot Htry.
  as_admin_in Hadm Htry. rewrite Hargs in Htry. step_in Htry.
  rewrite Hint in Htry. step_in Htry. rewrite Hbot in Htry.
  split_all Htry; inversion Htry; subst f r; do 2 eexists; reflexivity.
Qed.

(** X11. In the message relay the confirmation to the caller is sent
    inside the same [try] as the delivery.  So when the message reaches
    the target but the confirmation cannot be sent, the caller is next
    sent the delivery-failure line, with the text of the confirmation's
    exception, and then the technical-support text: a failed confirmation
    reads as a failed delivery, although the target has the message. *)
Theorem relay_failed_confirmation_reads_as_failed_delivery
  w u ctx id x y l n e :
  caller_is_admin w u id ->
  args ctx = Some (x :: y :: l) ->
  Py.int x = Some n ->
  application_and_bot (application ctx) = true ->
  (forall t, bot_send_message_outcome w t n (Py.join " " (y :: l)) None = None) ->
  (forall t, send_message_to_user_outcome w t
               ("✅ Сообщение отправлено пользователю " ++ x ++ ":" ++ Py.nl
                ++ "'" ++ Py.join " " (y :: l) ++ "'") = Some e) ->
  (exists started rest,
     events_of (handler admin_send_message w u ctx)
     = Log INFO started false
       :: BotSendMessage n (Py.join " " (y :: l)) None :: rest)
  /\ user_messages (events_of (handler admin_send_message w u ctx))
     = ["✅ Сообщение отправлено пользователю " ++ x ++ ":" ++ Py.nl
        ++ "'" ++ Py.join " " (y :: l) ++ "'";
        "❌ Не удалось отправить сообщение пользователю " ++ x ++ ": "
        ++ exc_str e;
        FAIL_TECHNICAL_SUPPORT_TEXT w].
Proof.
  intros Hadm Hargs Hint Hbot Hdelivered Hconfirm.
  destruct (handler_try admin_send_message w u ctx start) as [f r] eqn:Htry.
  destruct (relay_try_after_validation w u ctx id x y l n f r
              Hadm Hargs Hint Hbot Htry) as (started & rest & Htrace).
  assert (Hf : user_messages (trace f)
               = ["✅ Сообщение отправлено пользователю " ++ x ++ ":" ++ Py.nl
                  ++ "'" ++ Py.join " " (y :: l) ++ "'";
                  "❌ Не удалось отправить сообщение пользователю " ++ x ++ ": "
                  ++ exc_str e]
               /\ exists e', r = Raise e').
  { pose proof Htry as Htry'.
    as_admin_in Hadm Htry'. rewrite Hargs in Htry'. step_in Htry'.
    rewrite Hint in Htry'. step_in Htry'.
    rewrite Hbot in Htry'. step_in Htry'.
    rewrite Hdelivered in Htry'. step_in Htry'.
    rewrite Hconfirm in Htry'. step_in Htry'.
    split_all Htry'; inversion Htry'; subst f r; split; eauto. }
  destruct Hf as (Hmsgs & e' & ->).
  split.
  - destruct (after_any_try admin_send_message w u ctx f _ Htry)
      as (rest' & -> & _).
    rewrite Htrace. exists started. eexists. cbn [app]. reflexivity.
  - rewrite (user_messages_of_failed_relay w u ctx f e' Htry), Hmsgs.
    reflexivity.
Qed.

Lemma relay_failed_confirmation_reads_as_failed_delivery_witness :
  user_messages
    (events_of (handler admin_send_message Sample.mute Sample.from_admin
                  (Sample.with_args ["555"; "hello"])))
  = ["✅ Сообщение отправлено пользователю " ++ "555" ++ ":" ++ Py.nl
     ++ "'" ++ Py.join " " ["hello"] ++ "'";
     "❌ Не удалось отправить сообщение пользователю " ++ "555" ++ ": "
     ++ "Timed out";
     "technical failure"].
Proof.
  assert (Hadm : caller_is_admin Sample.mute Sample.from_admin "1").
  { split; [reflexivity|]. split; [reflexivity|].
    intros H. discriminate H. }
  apply (proj2 (relay_failed_confirmation_reads_as_failed_delivery
                  Sample.mute Sample.from_admin
                  (Sample.with_args ["555"; "hello"]) "1" "555" "hello" []
                  555%Z Sample.network_down Hadm eq_refl eq_refl eq_refl
                  (fun t => eq_refl) (fun t => eq_refl))).
Defined.

Lemma digit_is_not_space a : Py.is_digit a = true -> Py.is_space a = false.
Proof.
  unfold Py.is_digit, Py.is_space. cbv zeta.
  generalize (nat_of_ascii a). intros k H.
  apply andb_true_iff in H. destruct H as (H1 & H2).
  apply Nat.leb_le in H1, H2.
  apply orb_false_iff. split; apply andb_false_iff.
  - right. apply Nat.leb_gt. lia.
  - right. apply Nat.leb_gt. lia.
Qed.

Lemma digit_is_not_sign a :
  Py.is_digit a = true -> Ascii.eqb a "+" = false /\ Ascii.eqb a "-" = false.
Proof.
  intros H. split.
  - destruct (Ascii.eqb a "+") eqn:E; [|reflexivity].
    apply Ascii.eqb_eq in E. subst a. discriminate H.
  - destruct (Ascii.eqb a "-") eqn:E; [|reflexivity].
    apply Ascii.eqb_eq in E. subst a. discriminate H.
Qed.

Lemma strip_digits l :
  forallb Py.is_digit l = true -> Py.strip l = l.
Proof.
  intros Hall. unfold Py.strip.
  assert (Hl : forall k, forallb Py.is_digit k = true -> Py.lstrip k = k).
  { intros [|a k] Hk; [reflexivity|]. cbn in *.
    apply andb_true_iff in Hk. destruct Hk as (Ha & _).
    rewrite (digit_is_not_space a Ha). reflexivity. }
  rewrite (Hl l Hall).
  assert (Hrev : forallb Py.is_digit (rev l) = true).
  { apply forallb_forall. intros a Ha. apply in_rev in Ha.
    rewrite forallb_forall in Hall. auto. }
  rewrite (Hl _ Hrev). apply rev_involutive.
Qed.

Lemma int_digits_of_digits l :
  forallb Py.is_digit l = true ->
  forall acc b,
    (l <> [] \/ b = true) ->
    Py.int_digits l acc b
    = Some (fold_left (fun acc a => (10 * acc + Py.digit_val a)%Z) l acc).
Proof.
  induction l as [|a l IH]; intros Hall acc b Hne.
  - destruct Hne as [H | ->]; [contradiction H; reflexivity | reflexivity].
  - cbn in Hall. apply andb_true_iff in Hall. destruct Hall as (Ha & Hl).
    cbn [Py.int_digits fold_left]. rewrite Ha.
    apply IH; [exact Hl | right; reflexivity].
Qed.

(** [int] on a string of decimal digits. *)
Lemma int_of_decimal s :
  s <> "" ->
  forallb Py.is_digit (list_ascii_of_string s) = true ->
  (String.length s <= Py.max_str_digits)%nat ->
  Py.int s = Some (decimal (list_ascii_of_string s)).
Proof.
  intros Hne Hall Hlen. unfold Py.int. rewrite (strip_digits _ Hall).
  destruct (list_ascii_of_string s) as [|a l] eqn:El.
  - destruct s; [contradiction Hne; reflexivity | discriminate El].
  - pose proof Hall as Hall'. cbn in Hall'.
    apply andb_true_iff in Hall'. destruct Hall' as (Ha & _).
    destruct (digit_is_not_sign a Ha) as (-> & ->).
    unfold Py.int_unsigned.
    assert (Hf : filter Py.is_digit (a :: l) = a :: l).
    { apply forallb_filter_id. exact Hall. }
    rewrite Hf.
    assert (Hlen' : (length (a :: l) <=? Py.max_str_digits)%nat = true).
    { apply Nat.leb_le. rewrite <- El.
      rewrite <- (string_of_list_ascii_of_string s) in Hlen.
      clear - Hlen. revert Hlen.
      generalize (list_ascii_of_string s). intros k.
      induction k as [|c k IHk]; cbn; intros H; [lia|].
      assert (Hs : forall k', String.length (string_of_list_ascii k') = length k').
      { induction k'; cbn; congruence. }
      rewrite Hs in H. lia. }
    rewrite Hlen'. unfold decimal.
    apply int_digits_of_digits; [exact Hall | left; discriminate].
Qed.

(** X12. The message relay accepts as target every first argument made of
    one to 4300 decimal digits: for the admin, with at least one word of
    text and the bot available, the first thing handed to the bot is the
    text for the chat whose id is the decimal value of that argument. *)
Theorem relay_accepts_decimal_ids w u ctx id x y l :
  caller_is_admin w u id ->
  args ctx = Some (x :: y :: l) ->
  x <> "" ->
  forallb Py.is_digit (list_ascii_of_string x) = true ->
  (String.length x <= 4300)%nat ->
  application_and_bot (application ctx) = true ->
  exists started rest,
    events_of (handler admin_send_message w u ctx)
    = Log INFO started false
      :: BotSendMessage (decimal (list_ascii_of_string x))
           (Py.join " " (y :: l)) None
      :: rest.
Proof.
  intros Hadm Hargs Hne Hdigits Hlen Hbot.
  pose proof (int_of_decimal x Hne Hdigits Hlen) as Hint.
  destruct (handler_try admin_send_message w u ctx start) as [f r] eqn:Htry.
  destruct (relay_try_after_validation w u ctx id x y l _ f r
              Hadm Hargs Hint Hbot Htry) as (started & rest & Htrace).
  destruct (after_any_try admin_send_message w u ctx f r Htry)
    as (rest' & -> & _).
  rewrite Htrace. exists started. eexists. cbn [app]. reflexivity.
Qed.

Lemma relay_accepts_decimal_ids_witness :
  exists started rest,
    events_of (handler admin_send_message Sample.calm Sample.from_admin
                 (Sample.with_args ["7853115214"; "hello"]))
    = Log INFO started false
      :: BotSendMessage (decimal (list_ascii_of_string "7853115214"))
           (Py.join " " ["hello"]) None
      :: rest.
Proof.
  assert (Hadm : caller_is_admin Sample.calm Sample.from_admin "1").
  { split; [reflexivity|]. split; [reflexivity|].
    intros H. discriminate H. }
  assert (Hne : "7853115214" <> "") by (intros H; discriminate H).
  assert (Hlen : (String.length "7853115214" <= 4300)%nat)
    by (cbn [String.length]; lia).
  apply (relay_accepts_decimal_ids Sample.calm Sample.from_admin
           (Sample.with_args ["7853115214"; "hello"]) "1"
           "7853115214" "hello" [] Hadm eq_refl Hne eq_refl Hlen eq_refl).
Defined.
